(** * Option valuation pipeline (src/option_valuation.py)

    A shallow embedding of the analytics of [option_valuation.py]:
    years to maturity, historical volatility, the volatility table and
    its average, the interpolated treasury curve, the risk-free lookup
    and the Black-Scholes formula, followed by the properties of the
    written description of the program that are settled against it.

    Numbers are IEEE binary64 values (the kernel's primitive floats):
    Python's [float] and numpy's [float64] are both binary64, so [+],
    [-], [*], [/] and [sqrt] below are the operations the program runs.
    The transcendental library functions ([np.log], [np.exp],
    [norm.cdf]) are the fields of the interface [Libm]. *)

From Stdlib Require Import ZArith Bool List Ascii String DecimalString Lia.
From Stdlib Require Import Floats.
Import ListNotations.

Local Open Scope Z_scope.

Set Implicit Arguments.

(* ================================================================== *)
(** ** Exceptions and results *)

(** The exceptions the program can raise. [KeyError] carries the label
    that was looked for and the labels of the table's index, the two
    things line 189 puts in its message. *)
Inductive exn : Type :=
| ValueError (msg : string)
| KeyError (required : Z) (available : list Z)
| TypeError (msg : string)
| ZeroDivisionError
| OverflowError
| DownloadError (msg : string).

Inductive result (A : Type) : Type :=
| Ok (a : A)
| Raise (e : exn).

Arguments Ok {A} a.
Arguments Raise {A} e.

Definition is_ok {A} (r : result A) : bool :=
  match r with Ok _ => true | Raise _ => false end.

Definition rbind {A B} (r : result A) (k : A -> result B) : result B :=
  match r with
  | Ok a => k a
  | Raise e => Raise e
  end.

(* ================================================================== *)
(** ** binary64 helpers *)

Module F64.

Local Open Scope float_scope.

Definition nan : float := Eval cbv in (0 / 0)%float.

Definition is_nan (x : float) : bool := PrimFloat.is_nan x.

(** [float(n)] for a Python int; exact when [|n| <= 2^53], which covers
    every day count and maturity of the program. *)
Definition of_Z (n : Z) : float :=
  match n with
  | Z0 => 0
  | Zpos _ => PrimFloat.of_uint63 (Uint63.of_Z n)
  | Zneg p => - PrimFloat.of_uint63 (Uint63.of_Z (Zpos p))
  end.

(** Round half to even of [m * 2^e] for [m > 0], in exact integer
    arithmetic. *)
Definition round_half_even (m e : Z) : Z :=
  if (0 <=? e)%Z then (m * 2 ^ e)%Z
  else
    let d := (2 ^ (- e))%Z in
    let q := (m / d)%Z in
    let r := (m mod d)%Z in
    if (2 * r <? d)%Z then q
    else if (d <? 2 * r)%Z then (q + 1)%Z
    else if Z.even q then q else (q + 1)%Z.

(** Python's [round(x)] with no [ndigits] on a float: the nearest
    integer to the exact value of [x], ties to even; [ValueError] on a
    NaN and [OverflowError] on an infinity. *)
Definition py_round (x : float) : result Z :=
  match Prim2SF x with
  | S754_zero _ => Ok 0%Z
  | S754_infinity _ => Raise OverflowError
  | S754_nan => Raise (ValueError "cannot convert float NaN to integer")
  | S754_finite s m e =>
      Ok (if s then (- round_half_even (Zpos m) e)%Z
          else round_half_even (Zpos m) e)
  end.

Definition two52 : float := Eval cbv in of_Z (2 ^ 52).

(** [np.rint]: the nearest integral float, ties to even, keeping the
    sign of its argument (also on a zero result). *)
Definition rint (x : float) : float :=
  if is_nan x then x
  else if two52 <=? abs x then x
  else
    let r := if x <? 0 then (x - two52) + two52 else (x + two52) - two52 in
    if r =? 0 then (if (x <? 0) || (1 / x <? 0) then (-0) else 0) else r.

(** [round(x, 2)] on a numpy float64 (numpy's [__round__]): scale by
    [10**2], [rint], scale back. *)
Definition round2 (x : float) : float := rint (x * 100) / 100.

(** [values.sum()]: a reduction that starts from the first element; [0]
    on an empty array. *)
Definition sum (xs : list float) : float :=
  match xs with
  | [] => 0
  | x :: tl => fold_left PrimFloat.add tl x
  end.

Definition dropna (xs : list float) : list float :=
  filter (fun x => negb (is_nan x)) xs.

End F64.

Import F64.

(** The library functions the program calls and does not define. The
    one law is numpy's: the logarithm of a NaN is a NaN. *)
Class Libm : Type := {
  np_log : float -> float;
  np_exp : float -> float;
  norm_cdf : float -> float;
  np_log_nan : np_log nan = nan
}.

(* ================================================================== *)
(** ** Calendar dates ([datetime]) *)

Record date : Type := mkdate { year : Z; month : Z; day : Z }.

Definition date_eqb (a b : date) : bool :=
  (year a =? year b) && (month a =? month b) && (day a =? day b).

Module Calendar.

Definition MINYEAR : Z := 1.
Definition MAXYEAR : Z := 9999.

Definition is_leap (y : Z) : bool :=
  (y mod 4 =? 0) && (negb (y mod 100 =? 0) || (y mod 400 =? 0)).

Definition DAYS_IN_MONTH (m : Z) : Z :=
  match m with
  | 1 => 31 | 2 => 28 | 3 => 31 | 4 => 30 | 5 => 31 | 6 => 30
  | 7 => 31 | 8 => 31 | 9 => 30 | 10 => 31 | 11 => 30 | 12 => 31
  | _ => -1
  end.

Definition DAYS_BEFORE_MONTH (m : Z) : Z :=
  match m with
  | 1 => 0 | 2 => 31 | 3 => 59 | 4 => 90 | 5 => 120 | 6 => 151
  | 7 => 181 | 8 => 212 | 9 => 243 | 10 => 273 | 11 => 304 | 12 => 334
  | _ => -1
  end.

Definition days_in_month (y m : Z) : Z :=
  if (m =? 2) && is_leap y then 29 else DAYS_IN_MONTH m.

Definition days_before_year (y : Z) : Z :=
  let y := y - 1 in y * 365 + y / 4 - y / 100 + y / 400.

Definition days_before_month (y m : Z) : Z :=
  DAYS_BEFORE_MONTH m + (if (2 <? m) && is_leap y then 1 else 0).

(** The checks of the [datetime] constructor. *)
Definition valid_date (d : date) : bool :=
  (MINYEAR <=? year d) && (year d <=? MAXYEAR) &&
  (1 <=? month d) && (month d <=? 12) &&
  (1 <=? day d) && (day d <=? days_in_month (year d) (month d)).

Definition toordinal (d : date) : Z :=
  days_before_year (year d) + days_before_month (year d) (month d) + day d.

Definition DI400Y : Z := 146097.
Definition DI100Y : Z := 36524.
Definition DI4Y : Z := 1461.
Definition MAXORDINAL : Z := 3652059.

(** [_ord2ymd] of datetime.py. *)
Definition ord2ymd (n : Z) : date :=
  let n := n - 1 in
  let n400 := n / DI400Y in
  let n := n mod DI400Y in
  let year := n400 * 400 + 1 in
  let n100 := n / DI100Y in
  let n := n mod DI100Y in
  let n4 := n / DI4Y in
  let n := n mod DI4Y in
  let n1 := n / 365 in
  let n := n mod 365 in
  let year := year + n100 * 100 + n4 * 4 + n1 in
  if (n1 =? 4) || (n100 =? 4) then mkdate (year - 1) 12 31
  else
    let leapyear := (n1 =? 3) && (negb (n4 =? 24) || (n100 =? 3)) in
    let month := Z.shiftr (n + 50) 5 in
    let preceding :=
      DAYS_BEFORE_MONTH month + (if (2 <? month) && leapyear then 1 else 0) in
    if n <? preceding then
      let month := month - 1 in
      let preceding :=
        preceding
        - (DAYS_IN_MONTH month + (if (month =? 2) && leapyear then 1 else 0)) in
      mkdate year month (n - preceding + 1)
    else mkdate year month (n - preceding + 1).

(** [d + timedelta(days=k)]. *)
Definition add_days (d : date) (k : Z) : result date :=
  let n := toordinal d + k in
  if (1 <=? n) && (n <=? MAXORDINAL) then Ok (ord2ymd n)
  else Raise OverflowError.

(** [d.replace(year=y)]: the constructor's checks run on the new
    fields. *)
Definition replace_year (d : date) (y : Z) : result date :=
  let d' := mkdate y (month d) (day d) in
  if valid_date d' then Ok d'
  else if (MINYEAR <=? y) && (y <=? MAXYEAR)
       then Raise (ValueError "day is out of range for month")
       else Raise (ValueError "year is out of range").

(** [datetime.strptime(s, '%Y-%m-%d')]. A date string is represented by
    its three numeric fields; what is kept of the parse is the check
    that they name a day of the calendar. *)
Definition strptime (s : date) : result date :=
  if valid_date s then Ok s
  else Raise (ValueError "time data does not match format '%Y-%m-%d'").

(** [weekday()]: Monday is 0. *)
Definition weekday (d : date) : Z := (toordinal d + 6) mod 7.

End Calendar.

Import Calendar.

(* ================================================================== *)
(** ** calculate_years_to_maturity (lines 60-68) *)

Local Open Scope float_scope.

Definition calculate_years_to_maturity
    (valuation_date expiration_date vesting_end_date : date) : result Z :=
  rbind (strptime valuation_date) (fun valuation_date =>
  rbind (strptime expiration_date) (fun expiration_date =>
  rbind (strptime vesting_end_date) (fun vesting_end_date =>
    let ytm_valuation_expiration :=
      of_Z (toordinal expiration_date - toordinal valuation_date) / of_Z 365 in
    let ytm_valuation_vesting :=
      of_Z (toordinal vesting_end_date - toordinal valuation_date) / of_Z 365 in
    py_round ((ytm_valuation_expiration + ytm_valuation_vesting) / 2)))).

Local Close Scope float_scope.

(* ================================================================== *)
(** ** Market data and the console *)

(** One row of the frame [yf.download] returns (the two columns the
    program reads). *)
Record bar : Type := mkbar { Close : float; AdjClose : float }.

(** A downloaded frame: rows in index order. *)
Definition frame : Type := list (date * bar).

(** A pandas Series over a DatetimeIndex. *)
Definition Series : Type := list (date * float).

(** What the run does to the outside: the calls of [yf.download] with
    their arguments, and the error lines printed by the two [except]
    blocks (lines 105 and 141). The other [print]s carry no data that is
    not in the results and are left out. *)
Inductive event : Type :=
| EvDownload (ticker : string) (start_date end_date : date)
| EvPrintError (ticker : string) (e : exn).

(** Computations that write events and may raise. *)
Definition M (A : Type) : Type := (list event * result A)%type.

Definition ret {A} (a : A) : M A := ([], Ok a).

Definition lift {A} (r : result A) : M A := ([], r).

Definition tell (ev : event) : M unit := ([ev], Ok tt).

Definition bind {A B} (m : M A) (k : A -> M B) : M B :=
  match m with
  | (t, Ok a) => let '(t', r) := k a in (t ++ t', r)
  | (t, Raise e) => (t, Raise e)
  end.

(** [try: m except Exception as e: h e]. *)
Definition try_except {A} (m : M A) (h : exn -> M A) : M A :=
  match m with
  | (t, Raise e) => let '(t', r) := h e in (t ++ t', r)
  | (t, Ok a) => (t, Ok a)
  end.

Declare Scope m_scope.
Delimit Scope m_scope with M.
Notation "x <- m ;; k" := (bind m (fun x => k))
  (at level 61, m at next level, right associativity) : m_scope.
Notation "m ;;; k" := (bind m (fun _ => k))
  (at level 61, right associativity) : m_scope.

Definition trace {A} (m : M A) : list event := fst m.
Definition outcome {A} (m : M A) : result A := snd m.

(** The download calls of a trace, in order. *)
Definition downloads (t : list event) : list event :=
  filter (fun ev => match ev with EvDownload _ _ _ => true | _ => false end) t.

(* ================================================================== *)
(** ** Resampling and the sample standard deviation (pandas) *)

Module Pandas.

Local Open Scope float_scope.

(** The bin of [resample('W-FRI')]: weeks run Saturday to Friday. *)
Definition week_bin (d : date) : Z := ((toordinal d + 1) / 7)%Z.

(** The bin of [resample('M')]: calendar months. *)
Definition month_bin (d : date) : Z := (year d * 12 + (month d - 1))%Z.

(** [GroupBy.last]: the last value that is not NaN, NaN if there is
    none. *)
Definition last_valid (vs : list float) : float :=
  fold_left (fun acc v => if is_nan v then acc else v) vs nan.

Definition in_bin (bin : date -> Z) (k : Z) (s : Series) : list float :=
  map snd (filter (fun o => (bin (fst o) =? k)%Z) s).

Definition last_date (s : Series) (d0 : date) : date :=
  fst (last s (d0, nan)).

(** [s.resample(rule).last()] on a Series sorted by date: one value for
    every bin from the bin of the first row to the bin of the last row,
    NaN for a bin that holds no row. *)
Definition resample_last (bin : date -> Z) (s : Series) : list float :=
  match s with
  | [] => []
  | (d0, _) :: _ =>
      let k0 := bin d0 in
      let k1 := bin (last_date s d0) in
      map (fun i => last_valid (in_bin bin (k0 + Z.of_nat i) s))
          (seq 0 (Z.to_nat (k1 - k0 + 1)))
  end.

(** [prices.shift(1)]. *)
Definition shift1 (prices : list float) : list float :=
  match prices with
  | [] => []
  | _ :: _ => nan :: removelast prices
  end.

(** [prices / prices.shift(1)]. *)
Definition ratio_to_previous (prices : list float) : list float :=
  map (fun pq => fst pq / snd pq) (combine prices (shift1 prices)).

(** [Series.std()] (nanops.nanvar with [ddof=1], then the square root):
    NaN unless more than one value counts. The sums are taken left to
    right. *)
Definition std (values : list float) : float :=
  let values := dropna values in
  let count := Z.of_nat (List.length values) in
  if (count <=? 1)%Z then nan
  else
    let avg := sum values / of_Z count in
    let sqr := map (fun v => (avg - v) * (avg - v)) values in
    PrimFloat.sqrt (sum sqr / of_Z (count - 1)).

(** [Series.mean()] (nanops.nanmean): NaN values are skipped, NaN when
    nothing counts. *)
Definition mean (values : list float) : float :=
  let values := dropna values in
  let count := Z.of_nat (List.length values) in
  if (0 <? count)%Z then sum values / of_Z count else nan.

End Pandas.

Import Pandas.

(* ================================================================== *)
(** ** calculate_volatility (lines 9-31) *)

Section Volatility.

Context {libm : Libm}.
Variable yf_download : string -> date -> date -> result frame.

Local Open Scope float_scope.
Local Open Scope string_scope.

Definition download (ticker : string) (start_date end_date : date) : M frame :=
  ([EvDownload ticker start_date end_date], yf_download ticker start_date end_date).

(** Lines 17-27: the price column at the requested cadence and the
    annual factor. *)
Definition prices_at (adj_close : Series) (frequency : string)
  : result (list float * float) :=
  if String.eqb frequency "daily" then
    Ok (map snd adj_close, PrimFloat.sqrt 252)
  else if String.eqb frequency "weekly" then
    Ok (resample_last week_bin adj_close, PrimFloat.sqrt 52)
  else if String.eqb frequency "monthly" then
    Ok (resample_last month_bin adj_close, PrimFloat.sqrt 12)
  else Raise (ValueError "Invalid frequency. Use 'daily', 'weekly', or 'monthly'.").

(** Line 29. *)
Definition log_returns_of (prices : list float) : list float :=
  dropna (map np_log (ratio_to_previous prices)).

(** Line 15: [data['Adj Close']]. *)
Definition adj_close_of (data : frame) : Series :=
  map (fun row => (fst row, AdjClose (snd row))) data.

(** Lines 12-31, on the frame the download returned. *)
Definition volatility_of_data (ticker : string) (data : frame)
    (frequency : string) : result float :=
  match data with
  | [] => Raise (ValueError ("No data found for " ++ ticker))
  | _ :: _ =>
      let adj_close := adj_close_of data in
      rbind (prices_at adj_close frequency) (fun pf =>
        let log_returns := log_returns_of (fst pf) in
        let volatility := std log_returns * snd pf in
        Ok (round2 (volatility * 100)))
  end.

Definition calculate_volatility (ticker : string) (start_date end_date : date)
    (frequency : string) : M float :=
  (data <- download ticker start_date end_date ;;
   lift (volatility_of_data ticker data frequency))%M.

(* ---------------------------------------------------------------- *)
(** ** The volatility table and its average (lines 97-122) *)

(** Lines 98-105: one row per ticker whose computation returned; an
    exception is printed and the loop goes on. *)
Fixpoint volatilities_loop (tickers : list string) (start_date end_date : date)
    (frequency : string) : M (list (string * float)) :=
  match tickers with
  | [] => ret []
  | ticker :: rest =>
      (row <- try_except
                (volatility <- calculate_volatility ticker start_date end_date frequency ;;
                 ret (Some (ticker, volatility)))
                (fun e => tell (EvPrintError ticker e) ;;; ret None) ;;
       rows <- volatilities_loop rest start_date end_date frequency ;;
       ret (match row with Some r => r :: rows | None => rows end))%M
  end.

(** [volatility_df.mean(axis=0, numeric_only=True)]: one mean per
    numeric column. All rows share the one column named after the
    window; a frame built from no rows has no column. *)
Definition column_means (volatilities : list (string * float)) : list float :=
  match volatilities with
  | [] => []
  | _ :: _ => [mean (map snd volatilities)]
  end.

(** Line 115. *)
Definition average_volatility_of (volatilities : list (string * float)) : float :=
  mean (column_means volatilities) / 100.

(** Lines 118-122: the table that is written out, the rows of the loop
    followed by the "Average" row (its cell is missing when there is no
    numeric column). *)
Definition volatility_df (volatilities : list (string * float))
  : list (string * option float) :=
  map (fun r => (fst r, Some (snd r))) volatilities
  ++ [("Average", match column_means volatilities with
                  | [] => None
                  | m :: _ => Some (round2 m)
                  end)].

End Volatility.

(* ================================================================== *)
(** ** numpy.interp *)

Module Numpy.

Local Open Scope float_scope.

(** One segment of [np.interp] (compiled_base.c): the sample itself at
    its abscissa, else the line through the two samples, with numpy's
    second attempt from the right end when the first is NaN. *)
Definition segment (x0 y0 x1 y1 x : float) : float :=
  if x0 =? x then y0
  else
    let slope := (y1 - y0) / (x1 - x0) in
    let res := slope * (x - x0) + y0 in
    if is_nan res then
      let res := slope * (x - x1) + y1 in
      if is_nan res && (y0 =? y1) then y0 else res
    else res.

(** The search for the segment, [x] being at or after the first
    abscissa: past the last sample the value is the last ordinate. *)
Fixpoint interp_from (x : float) (x0 y0 : float) (rest : list (float * float))
  : float :=
  match rest with
  | [] => y0
  | (x1, y1) :: rest' =>
      if x <? x1 then segment x0 y0 x1 y1 x
      else interp_from x x1 y1 rest'
  end.

(** [np.interp(x, xp, fp)] at one point, the samples given as pairs in
    increasing order of abscissa: before the first sample the value is
    the first ordinate, after the last the last. *)
Definition interp1 (pts : list (float * float)) (x : float) : result float :=
  match pts with
  | [] => Raise (ValueError "array of sample points is empty")
  | (x0, y0) :: rest =>
      if is_nan x then Ok x
      else if x <? x0 then Ok y0
      else Ok (interp_from x x0 y0 rest)
  end.

Fixpoint interp (xs : list float) (pts : list (float * float))
  : result (list float) :=
  match xs with
  | [] => match pts with
          | [] => Raise (ValueError "array of sample points is empty")
          | _ :: _ => Ok []
          end
  | x :: xs' =>
      rbind (interp1 pts x) (fun y =>
      rbind (interp xs' pts) (fun ys => Ok (y :: ys)))
  end.

End Numpy.

Import Numpy.

(* ================================================================== *)
(** ** Small Python helpers *)

Module Py.

(** [range(a, b)]. *)
Definition range (a b : Z) : list Z :=
  map (fun i => a + Z.of_nat i) (seq 0 (Z.to_nat (b - a))).

Definition mem (x : Z) (l : list Z) : bool := existsb (Z.eqb x) l.

(** [l.index(x)]. *)
Fixpoint index (x : Z) (l : list Z) : option nat :=
  match l with
  | [] => None
  | y :: tl => if x =? y then Some 0%nat
               else option_map S (index x tl)
  end.

(** [max(l)]; [ValueError] on an empty sequence. *)
Definition max (l : list Z) : result Z :=
  match l with
  | [] => Raise (ValueError "max() arg is an empty sequence")
  | x :: tl => Ok (fold_left Z.max tl x)
  end.

Fixpoint insert_sorted {A} (key : A -> Z) (a : A) (l : list A) : list A :=
  match l with
  | [] => [a]
  | b :: tl => if key a <? key b then a :: l else b :: insert_sorted key a tl
  end.

(** [sorted(l)] by an integer key (stable). *)
Definition sorted_by {A} (key : A -> Z) (l : list A) : list A :=
  fold_right (insert_sorted key) [] l.

Fixpoint dedup_sorted (l : list Z) : list Z :=
  match l with
  | [] => []
  | x :: tl =>
      match tl with
      | [] => [x]
      | y :: _ => if x =? y then dedup_sorted tl else x :: dedup_sorted tl
      end
  end.

(** [sorted(set(l))]. *)
Definition sorted_set (l : list Z) : list Z :=
  dedup_sorted (sorted_by (fun x => x) l).

Definition digit_of (c : Ascii.ascii) : option Z :=
  let n := Z.of_nat (Ascii.nat_of_ascii c) in
  if (48 <=? n) && (n <=? 57) then Some (n - 48) else None.

Fixpoint int_prefix (s : string) (acc : option Z) : result Z :=
  match s with
  | EmptyString =>
      match acc with
      | Some n => Ok n
      | None => Raise (ValueError "invalid literal for int()")
      end
  | String c rest =>
      if Ascii.eqb c "-"%char then
        match acc with
        | Some n => Ok n
        | None => Raise (ValueError "invalid literal for int()")
        end
      else
        match digit_of c with
        | Some d =>
            int_prefix rest
              (Some (match acc with Some n => 10 * n + d | None => d end))
        | None => Raise (ValueError "invalid literal for int()")
        end
  end.

(** [int(name.split('-')[0])] on a name written in decimal digits up to
    its first dash. *)
Definition int_before_dash (name : string) : result Z := int_prefix name None.

End Py.

(* ================================================================== *)
(** ** Treasury yields and the interpolated curve (lines 33-47, 125-178) *)

Section Curve.

Variable yf_download : string -> date -> date -> result frame.

Local Open Scope float_scope.
Local Open Scope string_scope.

(** Lines 33-47. *)
Definition fetch_treasury_yield (ticker : string) (date_ : date) : M float :=
  (target_date <- lift (strptime date_) ;;
   start_date <- lift (add_days target_date (-7)) ;;
   end_date <- lift (add_days target_date 1) ;;
   data <- download yf_download ticker start_date end_date ;;
   match data with
   | [] => lift (Raise (ValueError ("No data found for " ++ ticker)))
   | row0 :: _ =>
       let latest_yield :=
         match find (fun row => date_eqb (fst row) date_) data with
         | Some row => Close (snd row)
         | None => Close (snd (last data row0))
         end in
       ret (round2 latest_yield)
   end)%M.

(** Lines 126-131. *)
Definition treasury_tickers : list (string * string) :=
  [("1-year", "^IRX"); ("5-year", "^FVX"); ("10-year", "^TNX"); ("30-year", "^TYX")].

(** Lines 133-142: a failed fetch is printed and recorded as [None]. *)
Fixpoint yields_loop (tickers : list (string * string)) (valuation_date : date)
  : M (list (string * option float)) :=
  match tickers with
  | [] => ret []
  | (ticker_name, ticker_symbol) :: rest =>
      (row <- try_except
                (latest_yield <- fetch_treasury_yield ticker_symbol valuation_date ;;
                 ret (ticker_name, Some latest_yield))
                (fun e => tell (EvPrintError ticker_name e) ;;; ret (ticker_name, None)) ;;
       rows <- yields_loop rest valuation_date ;;
       ret (row :: rows))%M
  end.

(** The list [yields] after the loop: one entry per treasury ticker, in
    the order of [treasury_tickers]. *)
Definition yields_of (y1 y5 y10 y30 : option float) : list (string * option float) :=
  [("1-year", y1); ("5-year", y5); ("10-year", y10); ("30-year", y30)].

(** [pd.DataFrame(yields)], column "Yield" (line 145): pandas infers the
    column's type from its cells. When a cell is a float the column is
    a float64 column and a [None] cell is stored as NaN; when every
    cell is [None] the column keeps the objects as they are. *)
Definition dataframe_column (cells : list (option float)) : list (option float) :=
  if existsb (fun c => match c with Some _ => true | None => false end) cells
  then map (fun c => Some (match c with Some v => v | None => nan end)) cells
  else cells.

Definition yield_df (yields : list (string * option float))
  : list (string * option float) :=
  combine (map fst yields) (dataframe_column (map snd yields)).

(** [yield_df.loc[yield_df['Ticker'] == ticker_name, 'Yield'].values[0]]. *)
Definition yield_value_of (df : list (string * option float)) (ticker_name : string)
  : result (option float) :=
  match find (fun row => String.eqb (fst row) ticker_name) df with
  | Some row => Ok (snd row)
  | None => Raise (ValueError "index 0 is out of bounds for axis 0 with size 0")
  end.

(** Line 147. *)
Fixpoint known_maturities_of (tickers : list (string * string))
  : result (list (string * Z)) :=
  match tickers with
  | [] => Ok []
  | (ticker_name, _) :: rest =>
      rbind (Py.int_before_dash ticker_name) (fun m =>
      rbind (known_maturities_of rest) (fun ms => Ok ((ticker_name, m) :: ms)))
  end.

(** Lines 154-158: the cells that are not [None]. *)
Fixpoint known_yields_of (df : list (string * option float))
    (known_maturities : list (string * Z)) : result (list (Z * float)) :=
  match known_maturities with
  | [] => Ok []
  | (ticker_name, maturity) :: rest =>
      rbind (yield_value_of df ticker_name) (fun yield_value =>
      rbind (known_yields_of df rest) (fun tl =>
        Ok (match yield_value with
            | Some v => (maturity, v) :: tl
            | None => tl
            end)))
  end.

(** Lines 165-169, for one maturity. *)
Definition curve_value (known_yields : list (Z * float))
    (intermediate_maturities : list Z) (interpolated_yields : list float)
    (maturity : Z) : result float :=
  match Py.index maturity (map fst known_yields) with
  | Some i => Ok (nth i (map snd known_yields) nan)
  | None =>
      match Py.index maturity intermediate_maturities with
      | Some i =>
          match nth_error interpolated_yields i with
          | Some y => Ok (round2 y)
          | None => Raise (ValueError "index out of bounds")
          end
      | None => Raise (ValueError "is not in list")
      end
  end.

Fixpoint curve_values (known_yields : list (Z * float))
    (intermediate_maturities : list Z) (interpolated_yields : list float)
    (maturities : list Z) : result (list (Z * option float)) :=
  match maturities with
  | [] => Ok []
  | maturity :: rest =>
      rbind (curve_value known_yields intermediate_maturities interpolated_yields maturity)
        (fun v =>
      rbind (curve_values known_yields intermediate_maturities interpolated_yields rest)
        (fun tl => Ok ((maturity, Some v) :: tl)))
  end.

(** Lines 147-178: the table [interpolated_df], one row per maturity.
    The row label "<N>-year" is represented by [N]; a cell is a float
    or [None]. *)
Definition interpolated_df_of (yields : list (string * option float))
  : result (list (Z * option float)) :=
  let df := yield_df yields in
  rbind (known_maturities_of treasury_tickers) (fun known_maturities =>
  rbind (Py.max (map snd known_maturities)) (fun max_maturity =>
    let intermediate_maturities :=
      filter (fun i => negb (Py.mem i (map snd known_maturities)))
             (Py.range 1 (max_maturity + 1)) in
    let all_maturities :=
      Py.sorted_set (map snd known_maturities ++ intermediate_maturities) in
    rbind (known_yields_of df known_maturities) (fun known_yields =>
      match known_yields with
      | _ :: _ =>
          let known_yields := Py.sorted_by fst known_yields in
          rbind (interp (map of_Z intermediate_maturities)
                        (map (fun p => (of_Z (fst p), snd p)) known_yields))
            (fun interpolated_yields =>
               curve_values known_yields intermediate_maturities
                            interpolated_yields all_maturities)
      | [] => Ok (map (fun maturity => (maturity, None)) all_maturities)
      end))).

(** Lines 185-191: the label must be in the index; the cell is divided
    by 100, which Python refuses for [None]. *)
Definition risk_free_rate_of (interpolated_df : list (Z * option float))
    (years_to_maturity : Z) : result float :=
  match find (fun row => fst row =? years_to_maturity)%Z interpolated_df with
  | None => Raise (KeyError years_to_maturity (map fst interpolated_df))
  | Some (_, None) =>
      Raise (TypeError "unsupported operand type(s) for /: 'NoneType' and 'int'")
  | Some (_, Some v) => Ok (v / 100)
  end.

End Curve.

(* ================================================================== *)
(** ** black_scholes (lines 49-53) *)

Section Pricer.

Context {libm : Libm}.

Local Open Scope float_scope.

(** [S] and [K] are the Python numbers of the configuration, so [S / K]
    is Python's division, which raises on a zero divisor; every other
    operation has a numpy float64 operand and returns a float64 (an
    infinity or a NaN where the result is not a number). [T] is the
    integer [calculate_years_to_maturity] returned; [sigma ** 2] is
    written as the product. *)
Definition black_scholes (S K : float) (T : Z) (r sigma : float) : result float :=
  if K =? 0 then Raise ZeroDivisionError
  else
    let T := of_Z T in
    let d1 := (np_log (S / K) + (r + 0.5 * (sigma * sigma)) * T)
              / (sigma * PrimFloat.sqrt T) in
    let d2 := d1 - sigma * PrimFloat.sqrt T in
    let option_price := S * norm_cdf d1 - K * np_exp ((- r) * T) * norm_cdf d2 in
    Ok option_price.

End Pricer.

(* ================================================================== *)
(** ** main (lines 70-196) *)

(** The configuration file, as [main] reads it (lines 78-84). *)
Record config : Type := mkconfig {
  stock_price : float;
  strike_price : float;
  valuation_date : date;
  expiration_date : date;
  vesting_end_date : date;
  public_comps : list string;
  frequency : option string
}.

(** What [main] has computed when it turns to the report. *)
Record valuation : Type := mkvaluation {
  years_to_maturity : Z;
  volatility_table : list (string * option float);
  interpolated_df : list (Z * option float);
  risk_free_rate : float;
  average_volatility : float;
  option_valuation : float
}.

Section Main.

Context {libm : Libm}.
Variable yf_download : string -> date -> date -> result frame.

Local Open Scope string_scope.

(** Lines 86-95: the maturity and the window of the price history. *)
Definition history_window (cfg : config) : result (Z * date * date) :=
  rbind (calculate_years_to_maturity (valuation_date cfg) (expiration_date cfg)
                                     (vesting_end_date cfg)) (fun years_to_maturity =>
  rbind (strptime (valuation_date cfg)) (fun valuation_date_dt =>
  rbind (replace_year valuation_date_dt (year valuation_date_dt - years_to_maturity))
    (fun start_date => Ok (years_to_maturity, start_date, valuation_date_dt)))).

(** Lines 107-195: what follows the loop over the tickers. *)
Definition main_after_volatilities (cfg : config) (years_to_maturity : Z)
    (volatilities : list (string * float)) : M valuation :=
  (let average_volatility := average_volatility_of volatilities in
   yields <- yields_loop yf_download treasury_tickers (valuation_date cfg) ;;
   interpolated_df <- lift (interpolated_df_of yields) ;;
   risk_free_rate <- lift (risk_free_rate_of interpolated_df years_to_maturity) ;;
   option_valuation <- lift (black_scholes (stock_price cfg) (strike_price cfg)
                               years_to_maturity risk_free_rate average_volatility) ;;
   ret (mkvaluation years_to_maturity (volatility_df volatilities) interpolated_df
          risk_free_rate average_volatility option_valuation))%M.

(** Lines 97-195, from the window on. *)
Definition main_from (cfg : config) (years_to_maturity : Z)
    (start_date end_date : date) : M valuation :=
  (let frequency := match frequency cfg with Some f => f | None => "daily" end in
   volatilities <- volatilities_loop yf_download (public_comps cfg)
                     start_date end_date frequency ;;
   main_after_volatilities cfg years_to_maturity volatilities)%M.

Definition main (cfg : config) : M valuation :=
  (w <- lift (history_window cfg) ;;
   main_from cfg (fst (fst w)) (snd (fst w)) (snd w))%M.

End Main.

(* ================================================================== *)
(** ** The report (lines 198-210) *)

(** A value of the report: a text, a float or an integer. *)
Inductive report_value : Type :=
| Text (s : string)
| Number (x : float)
| Integer (n : Z).

(** The decimal digits of an integer that is not negative. *)
Definition decimal (n : Z) : string :=
  NilZero.string_of_uint (N.to_uint (Z.to_N n)).

(** [d.strftime('%-m/%-d/%Y')] as the C library of Linux formats it:
    month, day and year, none of them padded. *)
Definition strftime_mdY (d : date) : string :=
  (decimal (month d) ++ "/" ++ decimal (day d) ++ "/" ++ decimal (year d))%string.

(** [round(x, 4)] on a numpy float64, as [round2]. *)
Definition round4 (x : float) : float := (rint (x * 10000) / 10000)%float.

(** Lines 199-210: the dictionary [input_data], its entries in the
    order they are written and evaluated. *)
Definition input_data_of (cfg : config) (grant_date : date) (v : valuation)
  : result (list (string * report_value)) :=
  rbind (strptime grant_date) (fun grant_date =>
  rbind (strptime (valuation_date cfg)) (fun valuation_date =>
  rbind (strptime (expiration_date cfg)) (fun expiration_date =>
  rbind (strptime (vesting_end_date cfg)) (fun vesting_end_date =>
    Ok [("Grant date"%string, Text (strftime_mdY grant_date));
        ("Valuation date"%string, Text (strftime_mdY valuation_date));
        ("Expiration date"%string, Text (strftime_mdY expiration_date));
        ("Vesting end date"%string, Text (strftime_mdY vesting_end_date));
        ("Stock price"%string, Number (stock_price cfg));
        ("Strike/Exercise price"%string, Number (strike_price cfg));
        ("Years to maturity (YTM)"%string, Integer (years_to_maturity v));
        ("Risk free rate"%string, Number (round4 (risk_free_rate v)));
        ("Volatility"%string, Number (round4 (average_volatility v)));
        ("Option Valuation"%string, Number (round2 (option_valuation v)))])))).

Section Report.

Context {libm : Libm}.
Variable yf_download : string -> date -> date -> result frame.

(** Lines 70-210: [main] up to the report, [grant_date] being the entry
    of the configuration that only the report reads. *)
Definition main_with_report (cfg : config) (grant_date : date)
  : M (valuation * list (string * report_value)) :=
  (v <- main yf_download cfg ;;
   input_data <- lift (input_data_of cfg grant_date v) ;;
   ret (v, input_data))%M.

End Report.

(* ================================================================== *)
(** ** A reference [Libm]

    Series evaluations of the three library functions in binary64,
    accurate to a few units in the last place. They make the model run
    on concrete inputs; the general theorems hold for every [Libm]. *)

Module RefLibm.

Local Open Scope float_scope.

Definition ln2_hi : float := 0x1.62e42fee00000p-1.
Definition ln2_lo : float := 0x1.a39ef35793c76p-33.
Definition sqrt_half : float := Eval cbv in PrimFloat.sqrt 0.5.
Definition inv_sqrt_2pi : float := 0x1.9884533d43651p-2.

(** [1 + z2/3 + z2^2/5 + ...] from the term of index [k] on. *)
Fixpoint atanh_series (n : nat) (k : Z) (z2 : float) : float :=
  match n with
  | O => 0
  | S n' => 1 / of_Z (2 * k + 1) + z2 * atanh_series n' (k + 1) z2
  end.

Definition log (x : float) : float :=
  if is_nan x then nan
  else if x <? 0 then nan
  else if x =? 0 then neg_infinity
  else if x =? infinity then infinity
  else
    let me := Z.frexp x in
    let me := if fst me <? sqrt_half then (fst me * 2, (snd me - 1)%Z) else me in
    let z := (fst me - 1) / (fst me + 1) in
    let s := 2 * z * atanh_series 14 0 (z * z) in
    of_Z (snd me) * ln2_hi + (of_Z (snd me) * ln2_lo + s).

(** [1 + r/k (1 + r/(k+1) (1 + ...))]. *)
Fixpoint exp_series (n : nat) (k : Z) (r : float) : float :=
  match n with
  | O => 1
  | S n' => 1 + r / of_Z k * exp_series n' (k + 1) r
  end.

Definition float_to_Z (x : float) : Z :=
  match py_round x with Ok n => n | Raise _ => 0%Z end.

Definition exp (x : float) : float :=
  if is_nan x then nan
  else if 710 <? x then infinity
  else if x <? -746 then 0
  else
    let k := rint (x / (ln2_hi + ln2_lo)) in
    let r := (x - k * ln2_hi) - k * ln2_lo in
    Z.ldexp (exp_series 22 1 r) (float_to_Z k).

Definition pdf (x : float) : float := exp (- (x * x) / 2) * inv_sqrt_2pi.

(** [1 + x2/3 + x2^2/(3*5) + ...]. *)
Fixpoint marsaglia (n : nat) (k : Z) (x2 : float) : float :=
  match n with
  | O => 1
  | S n' => 1 + x2 / of_Z (2 * k + 1) * marsaglia n' (k + 1) x2
  end.

(** [x + 1/(x + 2/(x + 3/(x + ...)))]. *)
Fixpoint tail_fraction (n : nat) (k : Z) (x : float) : float :=
  match n with
  | O => x
  | S n' => x + of_Z k / tail_fraction n' (k + 1) x
  end.

Definition upper_tail (x : float) : float := pdf x / tail_fraction 120 1 x.

Definition cdf (x : float) : float :=
  if is_nan x then nan
  else if x <? -4 then upper_tail (- x)
  else if 4 <? x then 1 - upper_tail x
  else 0.5 + pdf x * x * marsaglia 120 1 (x * x).

End RefLibm.

#[local] Instance ref_libm : Libm :=
  {| np_log := RefLibm.log;
     np_exp := RefLibm.exp;
     norm_cdf := RefLibm.cdf;
     np_log_nan := eq_refl |}.

(* ================================================================== *)
(** ** The written description, as definitions

    What the description of the pipeline says each quantity is, to be
    compared with what the program computes. *)

Module Spec.

Section WithLibm.

Context {libm : Libm}.

Local Open Scope float_scope.
Local Open Scope string_scope.


(** The last observation of each bin that holds one. *)
Fixpoint last_per_bin (bin : date -> Z) (s : Series) : list float :=
  match s with
  | [] => []
  | (d, p) :: tl =>
      match tl with
      | [] => [p]
      | (d', _) :: _ =>
          if (bin d =? bin d')%Z then last_per_bin bin tl
          else p :: last_per_bin bin tl
      end
  end.

Definition periods_per_year (frequency : string) : option Z :=
  if String.eqb frequency "daily" then Some 252%Z
  else if String.eqb frequency "weekly" then Some 52%Z
  else if String.eqb frequency "monthly" then Some 12%Z
  else None.

(** Step (1): the series at the requested cadence. *)
Definition resampled (frequency : string) (s : Series) : list float :=
  if String.eqb frequency "weekly" then last_per_bin week_bin s
  else if String.eqb frequency "monthly" then last_per_bin month_bin s
  else map snd s.

(** Step (2): [ln(P_t / P_{t-1})] for consecutive observations. *)
Fixpoint log_returns (prices : list float) : list float :=
  match prices with
  | [] => []
  | p0 :: tl =>
      match tl with
      | [] => []
      | p1 :: _ => np_log (p1 / p0) :: log_returns tl
      end
  end.

(** The arithmetic mean. *)
Definition arithmetic_mean (xs : list float) : float :=
  sum xs / of_Z (Z.of_nat (List.length xs)).

(** Step (3): the sample standard deviation, dividing by [n - 1]. *)
Definition sample_std (xs : list float) : float :=
  let avg := arithmetic_mean xs in
  PrimFloat.sqrt
    (sum (map (fun x => (avg - x) * (avg - x)) xs)
     / of_Z (Z.of_nat (List.length xs) - 1)).

(** Steps (4) and (5). *)
Definition volatility_percent (frequency : string) (s : Series) : float :=
  let periods := match periods_per_year frequency with Some n => n | None => 0%Z end in
  round2 (sample_std (log_returns (resampled frequency s))
          * PrimFloat.sqrt (of_Z periods) * 100).

(** No bin between the first and the last observation is empty, and the
    observations come in the order of their bins. *)
Fixpoint contiguous_bins (ks : list Z) : bool :=
  match ks with
  | [] => true
  | k :: tl =>
      match tl with
      | [] => true
      | k' :: _ => (k <=? k')%Z && (k' <=? k + 1)%Z && contiguous_bins tl
      end
  end.

Definition gap_free (frequency : string) (s : Series) : bool :=
  if String.eqb frequency "weekly" then contiguous_bins (map (fun o => week_bin (fst o)) s)
  else if String.eqb frequency "monthly" then contiguous_bins (map (fun o => month_bin (fst o)) s)
  else true.

(** Dates strictly increasing. *)
Fixpoint increasing_dates (s : Series) : bool :=
  match s with
  | [] => true
  | o :: tl =>
      match tl with
      | [] => true
      | o' :: _ => (toordinal (fst o) <? toordinal (fst o'))%Z && increasing_dates tl
      end
  end.

Definition no_nan (xs : list float) : bool := forallb (fun x => negb (is_nan x)) xs.

(** The line through two points of the curve, at [x]. *)
Definition linear (x0 y0 x1 y1 x : float) : float :=
  (y1 - y0) / (x1 - x0) * (x - x0) + y0.

(** The curve of the description over the reference maturities 1, 5,
    10 and 30: a known maturity has its yield as given, any other the
    interpolation between the two known points around it, rounded to 2
    decimals. *)
Definition curve_value (y1 y5 y10 y30 : float) (m : Z) : float :=
  if (m =? 1)%Z then y1
  else if (m <? 5)%Z then round2 (segment 1 y1 5 y5 (of_Z m))
  else if (m =? 5)%Z then y5
  else if (m <? 10)%Z then round2 (segment 5 y5 10 y10 (of_Z m))
  else if (m =? 10)%Z then y10
  else if (m <? 30)%Z then round2 (segment 10 y10 30 y30 (of_Z m))
  else y30.

End WithLibm.

End Spec.

(* ================================================================== *)
(** ** Sample inputs *)

Module Scenario.

Local Open Scope float_scope.
Local Open Scope string_scope.

Definition row (d : date) (p : float) : date * bar := (d, mkbar p p).

(** One row. *)
Definition single_day : frame := [ row (mkdate 2019 12 31) 100 ].

(** Four Friday closes; the week ending 2024-01-26 has no row. *)
Definition gapped_weeks : frame :=
  [ row (mkdate 2024 1 5) 100; row (mkdate 2024 1 12) 100;
    row (mkdate 2024 1 19) 100; row (mkdate 2024 2 2) 200 ].

Definition steady_prices : frame :=
  [ row (mkdate 2019 12 27) 100; row (mkdate 2019 12 30) 102;
    row (mkdate 2019 12 31) 101 ].

Definition is_treasury (ticker : string) : bool :=
  existsb (String.eqb ticker) (map snd treasury_tickers).

Definition treasury_frame (ticker : string) : frame :=
  if String.eqb ticker "^IRX" then [row (mkdate 2019 12 31) 1.5]
  else if String.eqb ticker "^FVX" then [row (mkdate 2019 12 31) 1.75]
  else if String.eqb ticker "^TNX" then [row (mkdate 2019 12 31) 2]
  else [row (mkdate 2019 12 31) 2.5].

(** Every treasury series is there; ticker "A" has prices, any other
    ticker has none. *)
Definition market (ticker : string) (start_date end_date : date) : result frame :=
  if is_treasury ticker then Ok (treasury_frame ticker)
  else if String.eqb ticker "A" then Ok steady_prices
  else Ok [].

(** As [market], but the five-year series cannot be fetched. *)
Definition market_without_5y (ticker : string) (start_date end_date : date)
  : result frame :=
  if String.eqb ticker "^FVX" then Raise (DownloadError "no data")
  else market ticker start_date end_date.

(** As [market], with no treasury series at all. *)
Definition market_without_yields (ticker : string) (start_date end_date : date)
  : result frame :=
  if is_treasury ticker then Ok [] else market ticker start_date end_date.

Definition grant (comps : list string) : config :=
  mkconfig 50 45 (mkdate 2020 1 1) (mkdate 2025 1 1) (mkdate 2023 1 1) comps None.

(** Valued on a leap day; the maturity comes out as 5 years. *)
Definition leap_day_grant : config :=
  mkconfig 50 45 (mkdate 2020 2 29) (mkdate 2026 2 28) (mkdate 2024 2 29) ["A"] None.

End Scenario.

(* ================================================================== *)
(** ** What one ticker contributes *)

Section PerTicker.

Context {libm : Libm}.
Variable yf_download : string -> date -> date -> result frame.
Variables (start_date end_date : date) (frequency : string).

(** The value or the exception of [calculate_volatility] for a ticker. *)
Definition ticker_outcome (ticker : string) : result float :=
  rbind (yf_download ticker start_date end_date)
        (fun data => volatility_of_data ticker data frequency).

Definition ticker_rows (ticker : string) : list (string * float) :=
  match ticker_outcome ticker with
  | Ok v => [(ticker, v)]
  | Raise _ => []
  end.

Definition ticker_events (ticker : string) : list event :=
  EvDownload ticker start_date end_date ::
  match ticker_outcome ticker with
  | Ok _ => []
  | Raise e => [EvPrintError ticker e]
  end.

Definition ticker_failed (ticker : string) : bool :=
  negb (is_ok (ticker_outcome ticker)).

End PerTicker.

(** Each price over the one before it. *)
Fixpoint ratios_after (p0 : float) (tl : list float) : list float :=
  match tl with
  | [] => []
  | p1 :: tl' => (p1 / p0)%float :: ratios_after p1 tl'
  end.

(** [x] is a zero or a finite number below [2^K] in absolute value. *)
Definition small (K : Z) (x : spec_float) : Prop :=
  match x with
  | S754_zero _ => True
  | S754_finite _ m e => Zpos (digits2_pos m) + e <= K
  | _ => False
  end.

(** The error lines of a trace, in order. *)
Definition printed_errors (t : list event) : list (string * exn) :=
  flat_map (fun ev => match ev with
                      | EvPrintError who e => [(who, e)]
                      | EvDownload _ _ _ => []
                      end) t.

(** The cell of a table at a label. *)
Definition cell (df : list (Z * option float)) (maturity : Z) : option (option float) :=
  option_map snd (find (fun row => fst row =? maturity)%Z df).

(* ================================================================== *)
(** ** Notions used by the further properties *)

(** The month and the day of the [n]-th day of a year, counting from 0
    (the end of [_ord2ymd]). *)
Definition month_day (n : Z) (leapyear : bool) : Z * Z :=
  let month := Z.shiftr (n + 50) 5 in
  let preceding :=
    DAYS_BEFORE_MONTH month + (if (2 <? month) && leapyear then 1 else 0) in
  if n <? preceding then
    let month := month - 1 in
    let preceding :=
      preceding
      - (DAYS_IN_MONTH month + (if (month =? 2) && leapyear then 1 else 0)) in
    (month, n - preceding + 1)
  else (month, n - preceding + 1).

(** What [month_day] has to satisfy at one day of the year. *)
Definition month_day_ok (n : Z) (leapyear : bool) : bool :=
  let md := month_day n leapyear in
  (1 <=? fst md) && (fst md <=? 12)
  && (1 <=? snd md)
  && (snd md <=? DAYS_IN_MONTH (fst md)
                 + (if (fst md =? 2) && leapyear then 1 else 0))
  && (DAYS_BEFORE_MONTH (fst md)
      + (if (2 <? fst md) && leapyear then 1 else 0) + snd md =? n + 1).

(** [x] is not below zero: a zero, a positive number, plus infinity or
    NaN. *)
Definition not_negative (x : spec_float) : Prop :=
  match x with
  | S754_finite true _ _ | S754_infinity true => False
  | _ => True
  end.


(** The cell pandas stores for an entry of a float column: a missing
    entry is NaN. *)
Definition or_nan (c : option float) : float :=
  match c with Some v => v | None => nan end.

(** The maturities that have a treasury ticker. *)
Definition is_known_maturity (m : Z) : bool :=
  Py.mem m [1; 5; 10; 30].

(* ================================================================== *)
(** * Properties *)

(* ------------------------------------------------------------------ *)
(** ** Facts on binary64 *)

Module FloatFacts.

Local Open Scope float_scope.

Lemma is_nan_Prim2SF (x : float) : is_nan x = true <-> Prim2SF x = S754_nan.
Proof.
  unfold is_nan, Prim2SF. destruct (PrimFloat.is_nan x); [tauto|].
  split; [discriminate|].
  destruct (is_zero x); [discriminate|].
  destruct (is_infinity x); [discriminate|].
  destruct (Z.frexp x) as [r ex].
  destruct (shr_fexp _ _ _ _ _) as [sh e'].
  destruct (shr_m sh); discriminate.
Qed.

(** There is one NaN. *)
Lemma nan_unique (x : float) : is_nan x = true -> x = nan.
Proof.
  intros H. apply is_nan_Prim2SF in H.
  rewrite <- (SF2Prim_Prim2SF x), H. reflexivity.
Qed.

Ltac by_spec spec x :=
  apply Prim2SF_inj; rewrite spec;
  destruct (Prim2SF x) as [[|]|[|]| |[|] ? ?]; reflexivity.

Lemma div_nan_r (x : float) : x / nan = nan.
Proof. by_spec div_spec x. Qed.

Lemma mul_nan_l (x : float) : nan * x = nan.
Proof. by_spec mul_spec x. Qed.

Lemma div_eucl_exact (a b q : Z) :
  (0 < b)%Z -> a = (q * b)%Z -> Z.div_eucl a b = (q, 0%Z).
Proof.
  intros Hb ->.
  pose proof (Z.div_mul q b ltac:(lia)) as Hq.
  pose proof (Z.mod_mul q b ltac:(lia)) as Hr.
  unfold Z.div, Z.modulo in Hq, Hr.
  destruct (Z.div_eucl (q * b) b). congruence.
Qed.

(** Dividing a finite binary64 number by one is exact. *)
Lemma SFdiv_one (s : bool) (m : positive) (e : Z) :
  bounded prec emax m e = true ->
  SFdiv prec emax (S754_finite s m e) (S754_finite false 4503599627370496 (-52))
  = S754_finite s m e.
Proof.
  unfold bounded, canonical_mantissa. intros H.
  apply andb_prop in H as [Hc He].
  apply Z.eqb_eq in Hc. apply Z.leb_le in He.
  unfold fexp, emin, prec, emax in Hc, He.
  unfold SFdiv, SFdiv_core_binary, binary_round_aux, shr_fexp.
  cbn [Zdigits2].
  change (Zpos (digits2_pos 4503599627370496)) with 53%Z.
  unfold fexp, emin, prec, emax.
  set (d := Zpos (digits2_pos m)) in *.
  assert (Hd : (0 < d)%Z) by (unfold d; lia).
  destruct (Z.eq_dec e (-1074)) as [He0 | He0].
  - (* the least exponent: the quotient is the mantissa itself *)
    replace (Z.min (Z.max (d + e - (53 + -52) - 53) (3 - 1024 - 53)) (e - -52))
      with e by lia.
    replace (e - -52 - e)%Z with 52%Z by lia.
    rewrite (@div_eucl_exact _ _ (Zpos m)); [| lia | rewrite Z.shiftl_mul_pow2; lia].
    cbn [new_location Z.even new_location_even Z.eqb shr_record_of_loc Zdigits2].
    fold d.
    replace (Z.max (d + e - 53) (3 - 1024 - 53) - e)%Z with 0%Z by lia.
    cbn [shr shr_m loc_of_shr_record round_nearest_even shr_record_of_loc Zdigits2].
    fold d.
    replace (Z.max (d + e - 53) (3 - 1024 - 53) - e)%Z with 0%Z by lia.
    cbn [shr shr_m].
    replace (e <=? 1024 - 53)%Z with true by (symmetry; apply Z.leb_le; lia).
    rewrite xorb_false_r. reflexivity.
  - (* otherwise one more bit is computed and shifted out again *)
    replace (Z.min (Z.max (d + e - (53 + -52) - 53) (3 - 1024 - 53)) (e - -52))
      with (e - 1)%Z by lia.
    replace (e - -52 - (e - 1))%Z with 53%Z by lia.
    rewrite (@div_eucl_exact _ _ (Zpos m~0)); [| lia | rewrite Z.shiftl_mul_pow2; lia].
    cbn [new_location Z.even new_location_even Z.eqb shr_record_of_loc Zdigits2 digits2_pos].
    rewrite Pos2Z.inj_succ. fold d.
    replace (Z.max (Z.succ d + (e - 1) - 53) (3 - 1024 - 53) - (e - 1))%Z with 1%Z by lia.
    cbn [shr iter_pos shr_1 shr_m loc_of_shr_record round_nearest_even shr_record_of_loc Zdigits2 orb].
    fold d.
    replace (Z.max (d + (e - 1 + 1) - 53) (3 - 1024 - 53) - (e - 1 + 1))%Z with 0%Z by lia.
    cbn [shr shr_m].
    replace (e - 1 + 1)%Z with e by lia.
    replace (e <=? 1024 - 53)%Z with true by (symmetry; apply Z.leb_le; lia).
    rewrite xorb_false_r. reflexivity.
Qed.

Lemma div_1_r (x : float) : x / 1 = x.
Proof.
  apply Prim2SF_inj. rewrite div_spec.
  change (Prim2SF 1) with (S754_finite false 4503599627370496 (-52)).
  pose proof (Prim2SF_valid x) as Hv.
  destruct (Prim2SF x) as [[|]|[|]| |s m e]; try reflexivity.
  apply SFdiv_one. exact Hv.
Qed.

(** A number minus itself is zero, or NaN when it is not finite. *)
Lemma sub_diag (x : float) : x - x = 0 \/ x - x = nan.
Proof.
  assert (H : Prim2SF (x - x) = S754_zero false \/ Prim2SF (x - x) = S754_nan).
  { rewrite sub_spec. destruct (Prim2SF x) as [[|]|[|]| |s m e]; cbn; auto.
    left. unfold SF64sub, SFsub. rewrite Z.sub_diag. reflexivity. }
  destruct H as [H | H]; [left | right]; apply Prim2SF_inj; rewrite H; reflexivity.
Qed.

Lemma dropna_no_nan (xs : list float) : Spec.no_nan xs = true -> dropna xs = xs.
Proof.
  unfold Spec.no_nan, dropna.
  induction xs as [|x xs IH]; cbn [forallb filter]; [reflexivity|].
  intros H. apply andb_prop in H as [Hx Hxs].
  rewrite Hx, (IH Hxs). reflexivity.
Qed.

Lemma no_nan_dropna (xs : list float) : Spec.no_nan (dropna xs) = true.
Proof.
  unfold Spec.no_nan, dropna.
  induction xs as [|x xs IH]; cbn [forallb filter]; [reflexivity|].
  destruct (is_nan x) eqn:E; cbn [negb forallb]; [exact IH|].
  rewrite E, IH. reflexivity.
Qed.

(** The pandas mean of one value is the value. *)
Lemma mean_singleton (x : float) : mean [x] = x.
Proof.
  unfold mean, dropna. cbn [filter].
  destruct (is_nan x) eqn:E; cbn.
  - symmetry. apply nan_unique. exact E.
  - apply div_1_r.
Qed.

End FloatFacts.

Import FloatFacts.

(* ------------------------------------------------------------------ *)
(** ** Magnitudes: no overflow in the maturity *)

Module Magnitude.

Lemma small_weaken (K K' : Z) (x : spec_float) : K <= K' -> small K x -> small K' x.
Proof. destruct x; cbn; intros; try tauto; lia. Qed.

Lemma digits2_size (p : positive) : digits2_pos p = Pos.size p.
Proof. induction p; cbn; congruence. Qed.

Lemma digits_upper (m : Z) : 0 <= m -> m < 2 ^ Zdigits2 m.
Proof.
  destruct m as [|p|p]; intros H; [reflexivity| |lia].
  cbn [Zdigits2]. rewrite digits2_size.
  pose proof (Pos.size_gt p) as Hp.
  change 2 with (Zpos 2) at 1. rewrite <- Pos2Z.inj_pow.
  apply Pos2Z.pos_lt_pos. exact Hp.
Qed.

Lemma digits_nonneg (m : Z) : 0 <= Zdigits2 m.
Proof. destruct m; cbn; lia. Qed.

Lemma digits_lower (p : positive) : 2 ^ (Zdigits2 (Zpos p) - 1) <= Zpos p.
Proof.
  cbn [Zdigits2]. rewrite digits2_size.
  pose proof (Pos.size_le p) as Hp.
  assert (H2 : 2 ^ Zpos (Pos.size p) <= 2 * Zpos p).
  { change (2 * Zpos p) with (Zpos p~0). change 2 with (Zpos 2) at 1.
    rewrite <- Pos2Z.inj_pow. apply Pos2Z.pos_le_pos. exact Hp. }
  replace (2 ^ Zpos (Pos.size p)) with (2 * 2 ^ (Zpos (Pos.size p) - 1)) in H2.
  - lia.
  - rewrite <- Z.pow_succ_r by lia. f_equal. lia.
Qed.

(** A number below [2^k] has at most [k] digits. *)
Lemma digits_le (m k : Z) : 0 <= m -> 0 <= k -> m < 2 ^ k -> Zdigits2 m <= k.
Proof.
  intros Hm Hk Hlt. destruct m as [|p|p]; [exact Hk| |lia].
  pose proof (digits_lower p) as Hl.
  destruct (Z_le_gt_dec (Zdigits2 (Zpos p)) k) as [|Hgt]; [assumption|].
  exfalso.
  assert (2 ^ k <= 2 ^ (Zdigits2 (Zpos p) - 1)) by (apply Z.pow_le_mono_r; lia).
  lia.
Qed.

Lemma digits_mono (a b : Z) : 0 <= a <= b -> Zdigits2 a <= Zdigits2 b.
Proof.
  intros H. apply digits_le; [lia | apply digits_nonneg|].
  pose proof (digits_upper (m := b)). lia.
Qed.

Lemma digits_succ (m : Z) : 0 <= m -> Zdigits2 (m + 1) <= Zdigits2 m + 1.
Proof.
  intros H. pose proof (digits_upper H) as Hu. pose proof (digits_nonneg m).
  apply digits_le; [lia | lia |].
  rewrite Z.pow_add_r by lia. lia.
Qed.

Lemma digits_add (a b k : Z) :
  0 <= a -> 0 <= b -> Zdigits2 a <= k -> Zdigits2 b <= k ->
  Zdigits2 (a + b) <= k + 1.
Proof.
  intros Ha Hb Hka Hkb.
  pose proof (digits_upper Ha). pose proof (digits_upper Hb).
  pose proof (digits_nonneg a). pose proof (digits_nonneg b).
  assert (2 ^ Zdigits2 a <= 2 ^ k) by (apply Z.pow_le_mono_r; lia).
  assert (2 ^ Zdigits2 b <= 2 ^ k) by (apply Z.pow_le_mono_r; lia).
  apply digits_le; [lia | lia |].
  rewrite Z.pow_add_r by lia. lia.
Qed.

Lemma digits_shift (m s : Z) : 0 <= m -> 0 <= s -> Zdigits2 (m * 2 ^ s) <= Zdigits2 m + s.
Proof.
  intros Hm Hs. pose proof (digits_upper Hm). pose proof (digits_nonneg m).
  assert (0 < 2 ^ s) by (apply Z.pow_pos_nonneg; lia).
  apply digits_le; [nia | lia |].
  rewrite Z.pow_add_r by lia. nia.
Qed.

Lemma digits_div_pow (m n : Z) :
  0 <= m -> 0 <= n -> Zdigits2 (m / 2 ^ n) + n <= Z.max (Zdigits2 m) n.
Proof.
  intros Hm Hn. pose proof (digits_upper Hm) as Hu. pose proof (digits_nonneg m).
  assert (Hp : 0 < 2 ^ n) by (apply Z.pow_pos_nonneg; lia).
  assert (0 <= m / 2 ^ n) by (apply Z.div_pos; lia).
  destruct (Z_le_gt_dec n (Zdigits2 m)) as [Hle | Hgt].
  - assert (Zdigits2 (m / 2 ^ n) <= Zdigits2 m - n); [|lia].
    apply digits_le; [lia | lia |].
    apply Z.div_lt_upper_bound; [lia|].
    rewrite <- Z.pow_add_r by lia. replace (n + (Zdigits2 m - n)) with (Zdigits2 m) by lia.
    exact Hu.
  - assert (m / 2 ^ n = 0); [|replace (m / 2 ^ n) with 0; cbn; lia].
    apply Z.div_small. split; [lia|].
    assert (2 ^ Zdigits2 m <= 2 ^ n) by (apply Z.pow_le_mono_r; lia). lia.
Qed.

Lemma shr_1_m (r : shr_record) :
  0 <= shr_m r -> shr_m (shr_1 r) = shr_m r / 2.
Proof.
  destruct r as [m rr ss]. cbn [shr_m]. intros H.
  destruct m as [|[p|p|]|p]; cbn [shr_1 shr_m];
    first [ reflexivity
          | lia
          | exfalso; lia
          | apply Z.div_unique with (r := 1); lia
          | apply Z.div_unique with (r := 0); lia ].
Qed.

Lemma pow2_xI (p : positive) : 2 ^ Zpos p~1 = 2 * (2 ^ Zpos p * 2 ^ Zpos p).
Proof.
  rewrite Pos2Z.inj_xI. replace (2 * Zpos p + 1) with (1 + Zpos p + Zpos p) by lia.
  rewrite !Z.pow_add_r by lia. change (2 ^ 1) with 2. ring.
Qed.

Lemma pow2_xO (p : positive) : 2 ^ Zpos p~0 = 2 ^ Zpos p * 2 ^ Zpos p.
Proof.
  rewrite (Pos2Z.inj_xO p). replace (2 * Zpos p) with (Zpos p + Zpos p) by lia.
  rewrite Z.pow_add_r by lia. reflexivity.
Qed.

(** Shifting a mantissa right by [p] bits divides it by [2^p]. *)
Lemma iter_shr_1_m (p : positive) (r : shr_record) :
  0 <= shr_m r -> shr_m (iter_pos shr_1 p r) = shr_m r / 2 ^ Zpos p.
Proof.
  revert r. induction p as [p IH | p IH |]; intros r Hr; cbn [iter_pos].
  - assert (Hp : 0 < 2 ^ Zpos p) by (apply Z.pow_pos_nonneg; lia).
    assert (H1 : 0 <= shr_m (shr_1 r))
      by (rewrite shr_1_m by exact Hr; apply Z.div_pos; lia).
    assert (H2 : 0 <= shr_m (iter_pos shr_1 p (shr_1 r)))
      by (rewrite IH by exact H1; apply Z.div_pos; lia).
    rewrite (IH _ H2), (IH _ H1), shr_1_m by exact Hr.
    rewrite !Z.div_div by lia. f_equal. rewrite pow2_xI. ring.
  - assert (Hp : 0 < 2 ^ Zpos p) by (apply Z.pow_pos_nonneg; lia).
    assert (H2 : 0 <= shr_m (iter_pos shr_1 p r))
      by (rewrite IH by exact Hr; apply Z.div_pos; lia).
    rewrite (IH _ H2), (IH _ Hr).
    rewrite !Z.div_div by lia. f_equal. rewrite pow2_xO. ring.
  - rewrite shr_1_m by exact Hr. reflexivity.
Qed.

Lemma shr_record_of_loc_m (m : Z) (l : location) : shr_m (shr_record_of_loc m l) = m.
Proof. destruct l as [|[| |]]; reflexivity. Qed.

(** Bringing a mantissa to its exponent keeps it non-negative and does
    not raise the magnitude. *)
Lemma shr_fexp_small (m e : Z) (l : location) :
  0 <= m ->
  0 <= shr_m (fst (shr_fexp prec emax m e l))
  /\ Zdigits2 (shr_m (fst (shr_fexp prec emax m e l))) + snd (shr_fexp prec emax m e l)
     <= Z.max (Zdigits2 m + e) (-1074).
Proof.
  intros Hm. unfold shr_fexp, shr, fexp, emin, prec, emax.
  pose proof (digits_nonneg m) as Hd.
  destruct (Z.max (Zdigits2 m + e - 53) (3 - 1024 - 53) - e) as [|p|p] eqn:En;
    cbn [fst snd]; rewrite ?shr_record_of_loc_m; try (split; lia).
  rewrite iter_shr_1_m by (rewrite shr_record_of_loc_m; exact Hm).
  rewrite shr_record_of_loc_m.
  assert (Hp : 0 < 2 ^ Zpos p) by (apply Z.pow_pos_nonneg; lia).
  split; [apply Z.div_pos; lia|].
  pose proof (@digits_div_pow m (Zpos p) Hm ltac:(lia)). lia.
Qed.

Lemma round_nearest_even_bounds (m : Z) (l : location) :
  0 <= m -> m <= round_nearest_even m l <= m + 1.
Proof.
  intros H. destruct l as [|[| |]]; cbn [round_nearest_even]; try lia.
  destruct (Z.even m); lia.
Qed.

(** Rounding a non-negative mantissa of magnitude at most [K] gives a
    zero or a finite number of magnitude at most [K + 1]. *)
Lemma binary_round_aux_small (s : bool) (m e : Z) (l : location) (K : Z) :
  0 <= m -> Zdigits2 m + e <= K -> -1074 <= K <= 970 ->
  small (K + 1) (binary_round_aux prec emax s m e l).
Proof.
  intros Hm Hk HK. unfold binary_round_aux.
  destruct (shr_fexp_small e l Hm) as [H1 D1].
  destruct (shr_fexp prec emax m e l) as [r1 e1]. cbn [fst snd] in H1, D1.
  pose proof (round_nearest_even_bounds (loc_of_shr_record r1) H1) as Hr.
  set (m2 := round_nearest_even (shr_m r1) (loc_of_shr_record r1)) in *.
  assert (Hm2 : 0 <= m2) by lia.
  assert (D2 : Zdigits2 m2 + e1 <= K + 1).
  { pose proof (digits_succ H1).
    assert (Zdigits2 m2 <= Zdigits2 (shr_m r1 + 1)) by (apply digits_mono; lia).
    lia. }
  destruct (shr_fexp_small e1 loc_Exact Hm2) as [H3 D3].
  destruct (shr_fexp prec emax m2 e1 loc_Exact) as [r3 e3]. cbn [fst snd] in H3, D3.
  destruct (shr_m r3) as [|p|p] eqn:E3; [exact I| |lia].
  cbn [Zdigits2] in D3.
  assert (He : e3 <= emax - prec) by (unfold emax, prec; lia).
  apply Z.leb_le in He. rewrite He. cbn [small]. lia.
Qed.

Lemma iter_xO (d m : positive) : Zpos (Pos.iter xO m d) = Zpos m * 2 ^ Zpos d.
Proof.
  induction d as [|d IH] using Pos.peano_ind.
  - cbn [Pos.iter]. change (2 ^ 1) with 2. lia.
  - rewrite Pos.iter_succ, Pos2Z.inj_xO, IH, Pos2Z.inj_succ, Z.pow_succ_r by lia. ring.
Qed.

Lemma binary_round_small (s : bool) (m : positive) (e K : Z) :
  Zdigits2 (Zpos m) + e <= K -> -1074 <= K <= 970 ->
  small (K + 1) (binary_round prec emax s m e).
Proof.
  intros Hk HK. unfold binary_round, shl_align.
  destruct (fexp prec emax (Zpos (digits2_pos m) + e) - e) as [|d|d] eqn:Ed;
    try (apply binary_round_aux_small; [lia | exact Hk | exact HK]).
  apply binary_round_aux_small; [lia | | exact HK].
  rewrite iter_xO.
  pose proof (@digits_shift (Zpos m) (Zpos d) ltac:(lia) ltac:(lia)). lia.
Qed.

Lemma binary_normalize_small (m e K : Z) (sz : bool) :
  Zdigits2 m + e <= K -> -1074 <= K <= 970 ->
  small (K + 1) (binary_normalize prec emax m e sz).
Proof.
  intros Hk HK. destruct m as [|p|p]; cbn [binary_normalize]; [exact I| |];
    apply binary_round_small; assumption.
Qed.

Lemma of_uint63_small (n : PrimInt63.int) : small 64 (Prim2SF (of_uint63 n)).
Proof.
  rewrite of_uint63_spec.
  apply (@binary_normalize_small _ _ 63); [|lia].
  pose proof (Uint63.to_Z_bounded n) as Hb.
  assert (Zdigits2 (Uint63.to_Z n) <= 63); [|lia].
  apply digits_le; [lia | lia |]. exact (proj2 Hb).
Qed.

Lemma of_Z_small (z : Z) : small 64 (Prim2SF (of_Z z)).
Proof.
  destruct z as [|p|p]; cbn [of_Z]; [exact I | apply of_uint63_small |].
  rewrite opp_spec. pose proof (of_uint63_small (Uint63.of_Z (Zpos p))) as H.
  destruct (Prim2SF _); exact H.
Qed.

(** Dividing by a finite number of exponent [e2]. *)
Lemma SFdiv_small (x : spec_float) (s2 : bool) (m2 : positive) (e2 K : Z) :
  small K x -> -1074 <= K - e2 <= 970 ->
  small (K - e2 + 1) (SFdiv prec emax x (S754_finite s2 m2 e2)).
Proof.
  destruct x as [sx|sx| |sx mx ex]; cbn [small SFdiv]; try tauto.
  intros Hk HK. unfold SFdiv_core_binary.
  set (e' := Z.min _ _).
  set (m' := match ex - e2 - e' with Z0 => _ | Zpos _ => _ | Zneg _ => _ end).
  assert (Hm' : 0 <= m' /\ Zdigits2 m' + e' <= K - e2).
  { unfold m'. cbn [Zdigits2] in *.
    destruct (ex - e2 - e') as [|p|p] eqn:Es.
    - cbn [Zdigits2]. lia.
    - rewrite Z.shiftl_mul_pow2 by lia.
      pose proof (@digits_shift (Zpos mx) (Zpos p) ltac:(lia) ltac:(lia)).
      cbn [Zdigits2] in *. split; [|lia].
      assert (0 < 2 ^ Zpos p) by (apply Z.pow_pos_nonneg; lia). nia.
    - cbn [Zdigits2]. split; [lia|].
      assert (e' <= ex - e2) by (unfold e'; lia).
      pose proof (digits_nonneg (Zpos mx)). cbn [Zdigits2] in *. lia. }
  destruct Hm' as [Hm0 Hd].
  assert (Hq : 0 <= m' / Zpos m2 <= m').
  { split; [apply Z.div_pos; lia|].
    apply Z.div_le_upper_bound; [lia|]. nia. }
  assert (Hdq : Zdigits2 (m' / Zpos m2) <= Zdigits2 m') by (apply digits_mono; exact Hq).
  assert (Eq : fst (Z.div_eucl m' (Zpos m2)) = m' / Zpos m2) by reflexivity.
  destruct (Z.div_eucl m' (Zpos m2)) as [q r]. cbn [fst] in Eq. subst q.
  apply binary_round_aux_small; [lia | lia | exact HK].
Qed.

(** Adding two numbers of magnitude at most [K]. *)
Lemma SFadd_small (x y : spec_float) (K : Z) :
  small K x -> small K y -> -1074 <= K + 1 <= 970 ->
  small (K + 2) (SFadd prec emax x y).
Proof.
  intros Hx Hy HK.
  destruct x as [sx|sx| |sx mx ex]; cbn [small] in Hx; try tauto;
  destruct y as [sy|sy| |sy my ey]; cbn [small] in Hy; try tauto;
    cbn [SFadd small].
  - destruct sx, sy; exact I.
  - lia.
  - lia.
  - set (ez := Z.min ex ey).
    assert (Hal : forall m e, ez <= e -> Zpos (digits2_pos m) + e <= K ->
              Zdigits2 (Zpos (fst (shl_align m e ez))) + ez <= K).
    { intros m e He Hm. unfold shl_align.
      destruct (ez - e) as [|d|d] eqn:Ed; cbn [fst];
        try (cbn [Zdigits2]; lia).
      rewrite iter_xO.
      pose proof (@digits_shift (Zpos m) (Zpos d) ltac:(lia) ltac:(lia)) as Hs.
      cbn [Zdigits2] in Hs. lia. }
    pose proof (Hal mx ex ltac:(unfold ez; lia) Hx) as Dx.
    pose proof (Hal my ey ltac:(unfold ez; lia) Hy) as Dy.
    set (ax := Zpos (fst (shl_align mx ex ez))) in *.
    set (ay := Zpos (fst (shl_align my ey ez))) in *.
    replace (K + 2) with (K + 1 + 1) by lia.
    apply binary_normalize_small; [|exact HK].
    set (M := cond_Zopp sx ax + cond_Zopp sy ay).
    assert (HM : Z.abs M <= ax + ay)
      by (unfold M, cond_Zopp, ax, ay; destruct sx, sy; lia).
    assert (Habs : Zdigits2 M = Zdigits2 (Z.abs M)) by (destruct M; reflexivity).
    rewrite Habs.
    assert (Zdigits2 (Z.abs M) <= Zdigits2 (ax + ay))
      by (apply digits_mono; lia).
    pose proof (@digits_add ax ay (K - ez) ltac:(unfold ax; lia) ltac:(unfold ay; lia)
                  ltac:(lia) ltac:(lia)).
    lia.
Qed.

Lemma py_round_small (K : Z) (x : float) :
  small K (Prim2SF x) -> exists n, py_round x = Ok n.
Proof.
  unfold py_round. destruct (Prim2SF x); cbn [small]; try tauto; eauto.
Qed.

(** The maturity is computed without overflow: the rounding of line 67
    always has a number to round. *)
Lemma rounded_average_returns (d1 d2 : Z) :
  exists n,
    py_round ((of_Z d1 / of_Z 365 + of_Z d2 / of_Z 365) / 2)%float = Ok n.
Proof.
  apply (@py_round_small 163).
  rewrite div_spec, add_spec, !div_spec.
  change (Prim2SF (of_Z 365)) with (S754_finite false 6421147906211840 (-44)).
  change (Prim2SF 2) with (S754_finite false 4503599627370496 (-51)).
  apply (@SFdiv_small _ false _ (-51) 111); [|lia].
  apply (@SFadd_small _ _ 109); [| |lia].
  - apply (@SFdiv_small _ false _ (-44) 64); [apply of_Z_small | lia].
  - apply (@SFdiv_small _ false _ (-44) 64); [apply of_Z_small | lia].
Qed.

End Magnitude.

Import Magnitude.

(* ------------------------------------------------------------------ *)
(** ** Facts on computations with a trace *)

Lemma bind_lift {A B} (r : result A) (k : A -> M B) :
  bind (lift r) k = match r with Ok a => k a | Raise e => ([], Raise e) end.
Proof. destruct r as [a|e]; cbn; [destruct (k a)|]; reflexivity. Qed.

Lemma trace_bind {A B} (m : M A) (k : A -> M B) :
  trace (bind m k)
  = trace m ++ match outcome m with Ok a => trace (k a) | Raise _ => [] end.
Proof.
  destruct m as [t [a|e]]; cbn.
  - destruct (k a); reflexivity.
  - symmetry. apply app_nil_r.
Qed.

Lemma outcome_bind {A B} (m : M A) (k : A -> M B) :
  outcome (bind m k) = rbind (outcome m) (fun a => outcome (k a)).
Proof. destruct m as [t [a|e]]; cbn; [destruct (k a)|]; reflexivity. Qed.

Lemma downloads_app (t1 t2 : list event) :
  downloads (t1 ++ t2) = downloads t1 ++ downloads t2.
Proof. apply filter_app. Qed.

Lemma printed_errors_app (t1 t2 : list event) :
  printed_errors (t1 ++ t2) = printed_errors t1 ++ printed_errors t2.
Proof. apply flat_map_app. Qed.

(* ------------------------------------------------------------------ *)
(** ** Years to maturity *)

Lemma strptime_valid (d : date) : valid_date d = true -> strptime d = Ok d.
Proof. unfold strptime. intros ->. reflexivity. Qed.



(** A tie goes to the even integer: 365 days and 0 days average to half
    a year, which rounds to 0; 1095 days and 0 days to 1.5, which rounds
    to 2. *)
Example years_to_maturity_ties :
  calculate_years_to_maturity (mkdate 2021 1 1) (mkdate 2022 1 1) (mkdate 2021 1 1) = Ok 0
  /\ calculate_years_to_maturity (mkdate 2021 1 1) (mkdate 2024 1 1) (mkdate 2021 1 1) = Ok 2.
Proof. split; reflexivity. Qed.

(* ------------------------------------------------------------------ *)
(** ** The pricer *)



(* ------------------------------------------------------------------ *)
(** ** The loop over the tickers *)

Section Loop.

Context {libm : Libm}.
Variable yf_download : string -> date -> date -> result frame.
Variables (start_date end_date : date) (frequency : string).

Local Abbreviation outcome_of := (ticker_outcome yf_download start_date end_date frequency).
Local Abbreviation rows_of := (ticker_rows yf_download start_date end_date frequency).
Local Abbreviation events_of := (ticker_events yf_download start_date end_date frequency).
Local Abbreviation failed := (ticker_failed yf_download start_date end_date frequency).

Lemma calculate_volatility_run (ticker : string) :
  calculate_volatility yf_download ticker start_date end_date frequency
  = ([EvDownload ticker start_date end_date], outcome_of ticker).
Proof.
  unfold calculate_volatility, download, ticker_outcome, bind, lift.
  destruct (yf_download ticker start_date end_date) as [data|e]; reflexivity.
Qed.

(** The loop never raises: it returns the rows of the tickers that
    succeeded, in order, and its trace is one download per ticker, each
    failure followed by its error line. *)
Lemma volatilities_loop_run (tickers : list string) :
  volatilities_loop yf_download tickers start_date end_date frequency
  = (flat_map events_of tickers, Ok (flat_map rows_of tickers)).
Proof.
  induction tickers as [|ticker rest IH]; [reflexivity|].
  cbn [volatilities_loop flat_map].
  rewrite calculate_volatility_run, IH.
  unfold ticker_events, ticker_rows.
  destruct (outcome_of ticker) as [v|e];
    cbn [bind try_except ret tell app]; rewrite ?app_nil_r; reflexivity.
Qed.

Lemma downloads_of_loop (tickers : list string) :
  downloads (flat_map events_of tickers)
  = map (fun ticker => EvDownload ticker start_date end_date) tickers.
Proof.
  induction tickers as [|ticker rest IH]; [reflexivity|].
  cbn [flat_map map]. rewrite downloads_app, IH.
  unfold ticker_events. destruct (outcome_of ticker); reflexivity.
Qed.

Lemma printed_errors_of_loop (tickers : list string) :
  printed_errors (flat_map events_of tickers)
  = flat_map (fun ticker => match outcome_of ticker with
                            | Ok _ => []
                            | Raise e => [(ticker, e)]
                            end) tickers.
Proof.
  induction tickers as [|ticker rest IH]; [reflexivity|].
  cbn [flat_map]. rewrite printed_errors_app, IH.
  unfold ticker_events. destruct (outcome_of ticker); reflexivity.
Qed.

Lemma rows_of_failed (ticker : string) : failed ticker = true -> rows_of ticker = [].
Proof.
  unfold ticker_failed, ticker_rows.
  destruct (outcome_of ticker); [discriminate | reflexivity].
Qed.

Lemma rows_only_of_succeeded (tickers : list string) (ticker : string) :
  In ticker (map fst (flat_map rows_of tickers)) -> failed ticker = false.
Proof.
  induction tickers as [|t rest IH]; cbn [flat_map map]; [intros []|].
  rewrite map_app, in_app_iff. intros [H | H]; [|exact (IH H)].
  unfold ticker_rows in H. unfold ticker_failed.
  destruct (outcome_of t) as [v|e] eqn:E; cbn in H; [|contradiction].
  destruct H as [<- | []]. rewrite E. reflexivity.
Qed.

Lemma rows_all_failed (tickers : list string) :
  (forall ticker, In ticker tickers -> failed ticker = true) ->
  flat_map rows_of tickers = [].
Proof.
  induction tickers as [|t rest IH]; [reflexivity|].
  intros H. cbn [flat_map].
  rewrite rows_of_failed by (apply H; left; reflexivity).
  apply IH. intros ticker Hin. apply H. right. exact Hin.
Qed.

End Loop.

(** Line 115 takes the mean of the column means; with the one column
    of the table this is the pandas mean of the column. *)
Lemma average_volatility_is_mean (volatilities : list (string * float)) :
  average_volatility_of volatilities = (mean (map snd volatilities) / 100)%float.
Proof.
  unfold average_volatility_of, column_means.
  destruct volatilities as [|r rest]; [reflexivity|].
  rewrite mean_singleton. reflexivity.
Qed.

(** Where a value counts, the pandas mean is the arithmetic mean of the
    values that are not NaN. *)
Lemma mean_is_arithmetic (values : list float) :
  dropna values <> [] -> mean values = Spec.arithmetic_mean (dropna values).
Proof.
  unfold mean, Spec.arithmetic_mean. intros H.
  destruct (dropna values) as [|x tl]; [contradiction|].
  replace (0 <? Z.of_nat (List.length (x :: tl))) with true; [reflexivity|].
  symmetry. apply Z.ltb_lt. cbn [List.length]. lia.
Qed.

(* ------------------------------------------------------------------ *)
(** ** The volatility table and its average *)

(** C9, as the program has it. Whatever the tickers do, the loop
    returns: its rows are those of the tickers whose computation
    returned, in order; each failure is printed (ticker and exception)
    and leaves no row, so a failed ticker is not among the rows; the
    average is the pandas mean of the rows' volatilities over 100, which
    is the arithmetic mean of those that are not NaN; and a failed
    ticker changes neither the rows nor the average. *)
Theorem volatility_aggregate
    (libm : Libm) (yf_download : string -> date -> date -> result frame)
    (start_date end_date : date) (frequency : string) (tickers : list string) :
  let run := volatilities_loop yf_download tickers start_date end_date frequency in
  let rows := flat_map (ticker_rows yf_download start_date end_date frequency) tickers in
  outcome run = Ok rows
  /\ printed_errors (trace run)
     = flat_map (fun ticker =>
                   match ticker_outcome yf_download start_date end_date frequency ticker with
                   | Ok _ => []
                   | Raise e => [(ticker, e)]
                   end) tickers
  /\ (forall ticker,
        ticker_failed yf_download start_date end_date frequency ticker = true ->
        ~ In ticker (map fst rows))
  /\ average_volatility_of rows = (mean (map snd rows) / 100)%float
  /\ (dropna (map snd rows) <> [] ->
      average_volatility_of rows
      = (Spec.arithmetic_mean (dropna (map snd rows)) / 100)%float)
  /\ (forall before ticker after,
        tickers = before ++ ticker :: after ->
        ticker_failed yf_download start_date end_date frequency ticker = true ->
        rows = flat_map (ticker_rows yf_download start_date end_date frequency)
                        (before ++ after)).
Proof.
  intros run rows. subst run rows. rewrite volatilities_loop_run.
  split; [reflexivity|]. split; [apply printed_errors_of_loop|].
  split.
  { intros ticker Hf Hin. apply rows_only_of_succeeded in Hin. congruence. }
  split; [apply average_volatility_is_mean|].
  split.
  { intros H. rewrite average_volatility_is_mean, mean_is_arithmetic by exact H.
    reflexivity. }
  intros before ticker after -> Hf.
  rewrite !flat_map_app. cbn [flat_map].
  erewrite rows_of_failed by exact Hf. reflexivity.
Qed.

(** Tickers "A" and "B", "B" having no data: the average is that of "A"
    alone, and "B" is printed with its exception. *)
Lemma volatility_aggregate_example :
  let market := Scenario.market in
  let start_date := mkdate 2016 1 1 in
  let end_date := mkdate 2020 1 1 in
  let run := volatilities_loop market ["A"; "B"]%string start_date end_date "daily" in
  ticker_failed market start_date end_date "daily" "B" = true
  /\ outcome run = outcome (volatilities_loop market ["A"]%string start_date end_date "daily")
  /\ printed_errors (trace run) = [("B"%string, ValueError "No data found for B")].
Proof.
  cbv zeta.
  pose proof (volatility_aggregate ref_libm Scenario.market (mkdate 2016 1 1)
                (mkdate 2020 1 1) "daily" ["A"; "B"]%string) as H.
  cbv zeta in H. destruct H as (Hrun & Hprint & _ & _ & _ & Hdrop).
  assert (Hf : ticker_failed Scenario.market (mkdate 2016 1 1) (mkdate 2020 1 1)
                 "daily" "B" = true) by reflexivity.
  split; [exact Hf|]. split.
  - rewrite Hrun, (Hdrop ["A"%string] "B"%string [] eq_refl Hf).
    rewrite volatilities_loop_run. reflexivity.
  - rewrite Hprint. reflexivity.
Defined.

(** C9 fails as stated: the result keeps no record of a failure. With
    tickers "A" and "B", "B" having no data, the run completes and "B"
    is in no row of the table it produces. *)
Lemma failed_ticker_not_in_result :
  exists v,
    outcome (main Scenario.market (Scenario.grant ["A"; "B"]%string)) = Ok v
    /\ ticker_failed Scenario.market (mkdate 2016 1 1) (mkdate 2020 1 1) "daily" "B" = true
    /\ ~ In "B"%string (map fst (volatility_table v)).
Proof.
  eexists. split; [vm_compute; reflexivity|]. split; [reflexivity|].
  cbn. intros [H | [H | []]]; discriminate H.
Qed.

(* ------------------------------------------------------------------ *)
(** ** No ticker succeeds *)

Lemma main_run (libm : Libm) (yf_download : string -> date -> date -> result frame)
    (cfg : config) (ytm : Z) (start_date end_date : date) :
  history_window cfg = Ok (ytm, start_date, end_date) ->
  main yf_download cfg = main_from yf_download cfg ytm start_date end_date.
Proof. unfold main. intros ->. rewrite bind_lift. reflexivity. Qed.

(** C5, as the program has it. When every ticker fails the table has no
    row, the average volatility is NaN, and [main] goes on as after any
    other loop: the curve is built, the rate looked up, and the pricer
    called with a NaN volatility. *)
Theorem no_ticker_succeeds_gives_nan
    (libm : Libm) (yf_download : string -> date -> date -> result frame)
    (cfg : config) (ytm : Z) (start_date end_date : date) :
  history_window cfg = Ok (ytm, start_date, end_date) ->
  (forall ticker, In ticker (public_comps cfg) ->
     ticker_failed yf_download start_date end_date
       (match frequency cfg with Some f => f | None => "daily"%string end) ticker = true) ->
  average_volatility_of [] = nan
  /\ outcome (main yf_download cfg)
     = outcome (main_after_volatilities yf_download cfg ytm [])
  /\ (forall v, outcome (main yf_download cfg) = Ok v ->
        average_volatility v = nan
        /\ volatility_table v = [("Average"%string, None)]
        /\ black_scholes (stock_price cfg) (strike_price cfg) ytm
             (risk_free_rate v) nan = Ok (option_valuation v)).
Proof.
  intros Hw Hfail. split; [reflexivity|].
  assert (Hmain : outcome (main yf_download cfg)
                  = outcome (main_after_volatilities yf_download cfg ytm [])).
  { erewrite main_run by exact Hw. unfold main_from.
    rewrite volatilities_loop_run. erewrite rows_all_failed by exact Hfail.
    rewrite outcome_bind. reflexivity. }
  split; [exact Hmain|].
  intros v Hv. rewrite Hmain in Hv. clear Hmain.
  unfold main_after_volatilities in Hv.
  rewrite outcome_bind in Hv.
  destruct (outcome (yields_loop _ _ _)) as [yields|e]; [|discriminate Hv].
  cbn [rbind] in Hv. rewrite bind_lift in Hv.
  destruct (interpolated_df_of yields) as [df|e]; [|discriminate Hv].
  rewrite bind_lift in Hv.
  destruct (risk_free_rate_of df ytm) as [rf|e]; [|discriminate Hv].
  rewrite bind_lift in Hv.
  change (average_volatility_of []) with nan in Hv.
  destruct (black_scholes _ _ ytm rf nan) as [ov|e] eqn:Ebs; [|discriminate Hv].
  cbn in Hv. injection Hv as <-. cbn. auto.
Qed.

(** One ticker, with no data. *)
Lemma no_ticker_succeeds_example :
  average_volatility_of [] = nan
  /\ outcome (main Scenario.market (Scenario.grant ["B"]%string))
     = outcome (main_after_volatilities Scenario.market (Scenario.grant ["B"]%string) 4 []).
Proof.
  destruct (no_ticker_succeeds_gives_nan ref_libm Scenario.market
              (Scenario.grant ["B"]%string) (ytm := 4)
              (start_date := mkdate 2016 1 1) (end_date := mkdate 2020 1 1))
    as (H1 & H2 & _).
  - reflexivity.
  - intros ticker [<- | []]. reflexivity.
  - exact (conj H1 H2).
Defined.

(** C5 fails as stated: with no successful ticker the pipeline does not
    fail; it returns a valuation whose volatility and price are NaN. *)
Lemma no_successful_ticker_still_returns :
  (forall ticker, In ticker ["B"%string] ->
     ticker_failed Scenario.market (mkdate 2016 1 1) (mkdate 2020 1 1) "daily" ticker = true)
  /\ is_ok (outcome (main Scenario.market (Scenario.grant ["B"]%string))) = true
  /\ option_map is_nan
       (match outcome (main Scenario.market (Scenario.grant ["B"]%string)) with
        | Ok v => Some (average_volatility v)
        | Raise _ => None
        end) = Some true.
Proof.
  split; [intros ticker [<- | []]; reflexivity|].
  split; vm_compute; reflexivity.
Qed.

(* ------------------------------------------------------------------ *)
(** ** The window of the price history *)

Lemma years_to_maturity_valid (v e s : date) (ytm : Z) :
  calculate_years_to_maturity v e s = Ok ytm -> valid_date v = true.
Proof.
  unfold calculate_years_to_maturity, strptime.
  destruct (valid_date v); [reflexivity | discriminate].
Qed.

Lemma leap_day_invalid (y : Z) : is_leap y = false -> valid_date (mkdate y 2 29) = false.
Proof.
  intros H. unfold valid_date, days_in_month. cbn [year month day].
  rewrite H. cbn. rewrite !andb_false_r. reflexivity.
Qed.

(** C10. Let the maturity come out as [ytm] years. When the month and
    the day of the valuation date exist in the year [ytm] years earlier,
    the window is from that day to the valuation date, and the downloads
    of the comparable tickers, the first of the run, all ask for that
    window. When the valuation date is a 29th of February and the year
    [ytm] years earlier is not a leap year, [main] raises a [ValueError]
    with nothing downloaded. *)
Theorem history_window_is_maturity_lookback
    (libm : Libm) (yf_download : string -> date -> date -> result frame)
    (cfg : config) (ytm : Z) :
  calculate_years_to_maturity (valuation_date cfg) (expiration_date cfg)
    (vesting_end_date cfg) = Ok ytm ->
  let v := valuation_date cfg in
  let start_date := mkdate (year v - ytm) (month v) (day v) in
  (valid_date start_date = true ->
     history_window cfg = Ok (ytm, start_date, v)
     /\ firstn (List.length (public_comps cfg))
               (downloads (trace (main yf_download cfg)))
        = map (fun ticker => EvDownload ticker start_date v) (public_comps cfg))
  /\ (month v = 2 -> day v = 29 -> is_leap (year v - ytm) = false ->
      exists msg, main yf_download cfg = ([], Raise (ValueError msg))).
Proof.
  intros Hytm v start_date.
  pose proof (years_to_maturity_valid _ _ _ Hytm) as Hv.
  assert (Hw : history_window cfg
               = rbind (replace_year v (year v - ytm))
                       (fun s => Ok (ytm, s, v))).
  { unfold history_window. rewrite Hytm. cbn [rbind].
    rewrite (strptime_valid _ Hv). reflexivity. }
  split.
  - intros Hs.
    assert (Hw' : history_window cfg = Ok (ytm, start_date, v)).
    { rewrite Hw. unfold replace_year. fold start_date. rewrite Hs. reflexivity. }
    split; [exact Hw'|].
    erewrite main_run by exact Hw'. unfold main_from.
    rewrite volatilities_loop_run, trace_bind. cbn [trace outcome fst snd].
    rewrite downloads_app, downloads_of_loop.
    rewrite firstn_app, length_map, Nat.sub_diag, firstn_O, app_nil_r.
    rewrite <- (length_map (fun ticker => EvDownload ticker start_date v)).
    apply firstn_all.
  - intros Hm Hd Hleap.
    assert (Hs : valid_date start_date = false).
    { unfold start_date. rewrite Hm, Hd. apply leap_day_invalid. exact Hleap. }
    unfold main. rewrite Hw. unfold replace_year. fold start_date. rewrite Hs.
    destruct ((MINYEAR <=? year v - ytm) && (year v - ytm <=? MAXYEAR));
      eexists; reflexivity.
Qed.

(** The grant of the description has a maturity of 4 years and is
    valued on 2020-01-01: the prices asked for are those from 2016-01-01
    to 2020-01-01. A grant valued on 2020-02-29 with a maturity of 5
    years stops before any download. *)
Lemma history_window_example :
  (history_window (Scenario.grant ["A"; "B"]%string)
   = Ok (4, mkdate 2016 1 1, mkdate 2020 1 1)
   /\ firstn 2 (downloads (trace (main Scenario.market (Scenario.grant ["A"; "B"]%string))))
      = [EvDownload "A" (mkdate 2016 1 1) (mkdate 2020 1 1);
         EvDownload "B" (mkdate 2016 1 1) (mkdate 2020 1 1)])
  /\ exists msg, main Scenario.market Scenario.leap_day_grant = ([], Raise (ValueError msg)).
Proof.
  split.
  - exact (proj1 (history_window_is_maturity_lookback ref_libm Scenario.market
                    (Scenario.grant ["A"; "B"]%string) (ytm := 4) eq_refl) eq_refl).
  - exact (proj2 (history_window_is_maturity_lookback ref_libm Scenario.market
                    Scenario.leap_day_grant (ytm := 5) eq_refl) eq_refl eq_refl eq_refl).
Defined.

(* ------------------------------------------------------------------ *)
(** ** Resampling a series with no empty bin *)

Section Resample.

Variable bin : date -> Z.

Local Abbreviation bins s := (map (fun o : date * float => bin (fst o)) s).

Lemma last_valid_single (p : float) : is_nan p = false -> last_valid [p] = p.
Proof. unfold last_valid. cbn. intros ->. reflexivity. Qed.

Lemma last_valid_skip (p q : float) (r : list float) :
  is_nan q = false -> last_valid (p :: q :: r) = last_valid (q :: r).
Proof. unfold last_valid. cbn. intros ->. destruct (is_nan p); reflexivity. Qed.

Lemma last_per_bin_step (d0 d1 : date) (p0 p1 : float) (s : Series) :
  Spec.last_per_bin bin ((d0, p0) :: (d1, p1) :: s)
  = if bin d0 =? bin d1 then Spec.last_per_bin bin ((d1, p1) :: s)
    else p0 :: Spec.last_per_bin bin ((d1, p1) :: s).
Proof. reflexivity. Qed.

Lemma contiguous_lower_bound (k : Z) (ks : list Z) :
  Spec.contiguous_bins (k :: ks) = true -> Forall (fun k' => k <= k') ks.
Proof.
  revert k. induction ks as [|k' ks IH]; intros k H; [constructor|].
  cbn [Spec.contiguous_bins] in H.
  apply andb_prop in H as [H Hc]. apply andb_prop in H as [H1 H2].
  apply Z.leb_le in H1. constructor; [exact H1|].
  eapply Forall_impl; [|exact (IH _ Hc)]. cbn. intros. lia.
Qed.

Lemma in_bin_none (k : Z) (s : Series) :
  Forall (fun k' => k < k') (bins s) -> in_bin bin k s = [].
Proof.
  unfold in_bin. induction s as [|o s IH]; [reflexivity|].
  intros H. inversion H as [|? ? Hk Hs]; subst. cbn [filter].
  replace (bin (fst o) =? k) with false by (symmetry; apply Z.eqb_neq; lia).
  exact (IH Hs).
Qed.

Lemma last_bin_lower_bound (k : Z) (s : Series) (o d : date * float) :
  Forall (fun k' => k <= k') (bins (o :: s)) -> k <= bin (fst (last (o :: s) d)).
Proof.
  revert o. induction s as [|o' s IH]; intros o H.
  - inversion H; subst. exact H2.
  - change (last (o :: o' :: s) d) with (last (o' :: s) d).
    apply IH. inversion H; assumption.
Qed.

Lemma in_bin_cons (k : Z) (d : date) (p : float) (s : Series) :
  in_bin bin k ((d, p) :: s)
  = if bin d =? k then p :: in_bin bin k s else in_bin bin k s.
Proof. unfold in_bin. cbn [filter fst]. destruct (bin d =? k); reflexivity. Qed.

(** When the rows come bin after bin with no bin left out and no price
    is NaN, pandas' resampling keeps the last row of each bin. *)
Lemma resample_last_contiguous (s : Series) :
  Spec.contiguous_bins (bins s) = true ->
  Spec.no_nan (map snd s) = true ->
  resample_last bin s = Spec.last_per_bin bin s.
Proof.
  destruct s as [|o s]; [reflexivity|].
  unfold resample_last, last_date. destruct o as [d0 p0].
  change (fst (d0, p0)) with d0.
  generalize (d0, nan) at 1. intros dflt.
  revert d0 p0. induction s as [|[d1 p1] s IH]; intros d0 p0 Hc Hn.
  - cbn [last fst]. replace (bin d0 - bin d0 + 1) with 1 by lia.
    change (Z.to_nat 1) with 1%nat.
    cbn [seq map Spec.last_per_bin Z.of_nat].
    rewrite in_bin_cons.
    replace (bin d0 =? bin d0 + 0) with true by (symmetry; apply Z.eqb_eq; lia).
    change (in_bin bin (bin d0 + 0) []) with (@nil float).
    rewrite last_valid_single; [reflexivity|].
    cbn in Hn. destruct (is_nan p0); [discriminate | reflexivity].
  - change (last ((d0, p0) :: (d1, p1) :: s) dflt) with (last ((d1, p1) :: s) dflt).
    pose proof (@contiguous_lower_bound _ _ Hc) as Hlow0.
    cbn [map fst Spec.contiguous_bins] in Hc.
    apply andb_prop in Hc as [H01 Hc]. apply andb_prop in H01 as [H0 H1].
    apply Z.leb_le in H0, H1.
    pose proof (@contiguous_lower_bound _ _ Hc) as Hlow1.
    assert (Hlast : bin d1 <= bin (fst (last ((d1, p1) :: s) dflt))).
    { apply last_bin_lower_bound. constructor; [cbn; lia | exact Hlow1]. }
    cbn [map snd Spec.no_nan forallb] in Hn.
    apply andb_prop in Hn as [Hp0 Hn].
    assert (Hp0' : is_nan p0 = false)
      by (destruct (is_nan p0); [discriminate | reflexivity]).
    assert (Hp1 : is_nan p1 = false).
    { apply andb_prop in Hn as [Hn _].
      destruct (is_nan p1); [discriminate | reflexivity]. }
    assert (Hc' : Spec.contiguous_bins (bins ((d1, p1) :: s)) = true) by exact Hc.
    assert (Hn' : Spec.no_nan (map snd ((d1, p1) :: s)) = true) by exact Hn.
    specialize (IH d1 p1 Hc' Hn').
    rewrite last_per_bin_step.
    destruct (Z.eqb_spec (bin d0) (bin d1)) as [E | E].
    + (* the next row is in the same bin *)
      rewrite <- IH, E. apply map_ext. intros i.
      rewrite (in_bin_cons _ d0), E.
      destruct (Z.eqb_spec (bin d1) (bin d1 + Z.of_nat i)) as [Ei | Ei];
        [|reflexivity].
      rewrite in_bin_cons, <- Ei, Z.eqb_refl.
      apply last_valid_skip. exact Hp1.
    + (* the next row opens the next bin *)
      assert (E1 : bin d1 = bin d0 + 1) by lia.
      replace (Z.to_nat (bin (fst (last ((d1, p1) :: s) dflt)) - bin d0 + 1))
        with (S (Z.to_nat (bin (fst (last ((d1, p1) :: s) dflt)) - bin d1 + 1)))
        by lia.
      cbn [seq map]. f_equal.
      * rewrite !in_bin_cons. cbn [Z.of_nat].
        replace (bin d0 =? bin d0 + 0) with true by (symmetry; apply Z.eqb_eq; lia).
        replace (bin d1 =? bin d0 + 0) with false by (symmetry; apply Z.eqb_neq; lia).
        rewrite in_bin_none.
        -- apply last_valid_single. exact Hp0'.
        -- eapply Forall_impl; [|exact Hlow1]. cbn. intros. lia.
      * rewrite <- IH, <- seq_shift, map_map. apply map_ext. intros i.
        rewrite (in_bin_cons _ d0).
        replace (bin d0 =? bin d0 + Z.of_nat (S i)) with false
          by (symmetry; apply Z.eqb_neq; lia).
        replace (bin d0 + Z.of_nat (S i)) with (bin d1 + Z.of_nat i) by lia.
        reflexivity.
Qed.

End Resample.

(* ------------------------------------------------------------------ *)
(** ** Log returns and their standard deviation *)

Section Returns.

Context {libm : Libm}.

Lemma combine_removelast (p0 : float) (tl : list float) :
  map (fun pq => (fst pq / snd pq)%float) (combine tl (removelast (p0 :: tl)))
  = ratios_after p0 tl.
Proof.
  revert p0. induction tl as [|p1 tl IH]; intros p0; [reflexivity|].
  change (removelast (p0 :: p1 :: tl)) with (p0 :: removelast (p1 :: tl)).
  cbn [combine map fst snd ratios_after]. rewrite IH. reflexivity.
Qed.

Lemma spec_log_returns_ratios (p0 : float) (tl : list float) :
  Spec.log_returns (p0 :: tl) = map np_log (ratios_after p0 tl).
Proof.
  revert p0. induction tl as [|p1 tl IH]; intros p0; [reflexivity|].
  change (Spec.log_returns (p0 :: p1 :: tl))
    with (np_log (p1 / p0)%float :: Spec.log_returns (p1 :: tl)).
  rewrite IH. reflexivity.
Qed.

(** The first ratio has no predecessor and is dropped; when no other
    return is NaN, line 29 computes the consecutive log returns. *)
Lemma log_returns_of_spec (prices : list float) :
  Spec.no_nan (Spec.log_returns prices) = true ->
  log_returns_of prices = Spec.log_returns prices.
Proof.
  destruct prices as [|p0 tl]; [reflexivity|].
  intros H. unfold log_returns_of, ratio_to_previous, shift1.
  cbn [combine map fst snd].
  rewrite combine_removelast, div_nan_r, np_log_nan.
  rewrite <- spec_log_returns_ratios.
  unfold dropna at 1. cbn [filter]. change (is_nan nan) with true. cbn [negb].
  apply dropna_no_nan. exact H.
Qed.

Lemma log_returns_of_length (prices : list float) :
  (List.length (log_returns_of prices) <= List.length prices)%nat.
Proof.
  unfold log_returns_of, dropna, ratio_to_previous.
  etransitivity; [apply filter_length_le|].
  rewrite !length_map, length_combine. apply Nat.le_min_l.
Qed.

Lemma spec_log_returns_length (prices : list float) :
  List.length (Spec.log_returns prices) = pred (List.length prices).
Proof.
  destruct prices as [|p0 tl]; [reflexivity|].
  rewrite spec_log_returns_ratios, length_map. cbn [List.length pred].
  revert p0. induction tl as [|p1 tl IH]; intros p0; [reflexivity|].
  cbn [ratios_after List.length]. rewrite IH. reflexivity.
Qed.

End Returns.

(** With at most one value there is no standard deviation. *)
Lemma std_short (values : list float) :
  (List.length values <= 1)%nat -> std values = nan.
Proof.
  intros H. unfold std.
  pose proof (filter_length_le (fun x => negb (is_nan x)) values) as Hd.
  fold (dropna values) in Hd.
  replace (Z.of_nat (List.length (dropna values)) <=? 1) with true; [reflexivity|].
  symmetry. apply Z.leb_le. lia.
Qed.

(** Dividing by [n - 1 = 0]: the formula for one value is NaN as well. *)
Lemma sample_std_single (x : float) : Spec.sample_std [x] = nan.
Proof.
  unfold Spec.sample_std, Spec.arithmetic_mean. cbn [List.length sum fold_left map].
  change (of_Z (Z.of_nat 1)) with 1%float. rewrite div_1_r.
  destruct (sub_diag x) as [-> | ->]; reflexivity.
Qed.

(** Where no value is NaN, pandas' standard deviation is the sample
    standard deviation. *)
Lemma std_is_sample_std (values : list float) :
  Spec.no_nan values = true -> values <> [] ->
  std values = Spec.sample_std values.
Proof.
  intros Hn Hne. destruct values as [|x [|y tl]]; [contradiction| |].
  - rewrite sample_std_single. apply std_short. cbn. lia.
  - unfold std. rewrite (dropna_no_nan _ Hn).
    replace (Z.of_nat (List.length (x :: y :: tl)) <=? 1) with false
      by (symmetry; apply Z.leb_gt; cbn [List.length]; lia).
    reflexivity.
Qed.

(* ------------------------------------------------------------------ *)
(** ** The volatility of one series *)

Section Estimate.

Context {libm : Libm}.

Ltac frequency_cases frequency :=
  destruct (String.eqb_spec frequency "daily") as [-> | _];
  [| destruct (String.eqb_spec frequency "weekly") as [-> | _];
     [| destruct (String.eqb_spec frequency "monthly") as [-> | _] ] ].

Lemma prices_at_ok (s : Series) (frequency : string) :
  is_ok (prices_at s frequency)
  = match Spec.periods_per_year frequency with Some _ => true | None => false end.
Proof.
  unfold prices_at, Spec.periods_per_year.
  frequency_cases frequency; reflexivity.
Qed.

(** Lines 17-27 on a series with no empty bin and no NaN price. *)
Lemma prices_at_spec (s : Series) (frequency : string) (periods : Z) :
  Spec.periods_per_year frequency = Some periods ->
  Spec.gap_free frequency s = true ->
  Spec.no_nan (map snd s) = true ->
  prices_at s frequency
  = Ok (Spec.resampled frequency s, PrimFloat.sqrt (of_Z periods)).
Proof.
  unfold prices_at, Spec.periods_per_year, Spec.gap_free, Spec.resampled.
  frequency_cases frequency; cbn [String.eqb Ascii.eqb Bool.eqb];
    intros Hp Hg Hn; try discriminate Hp; injection Hp as <-.
  - reflexivity.
  - rewrite (resample_last_contiguous _ _ Hg Hn). reflexivity.
  - rewrite (resample_last_contiguous _ _ Hg Hn). reflexivity.
Qed.

End Estimate.

(** C1, as the program has it. Take a frequency among daily, weekly and
    monthly and a price series with at least 2 observations after
    resampling, in which every week (month) from the first to the last
    observation holds an observation, no price is NaN and every log
    return is a number. Then the estimate is the sample standard
    deviation (dividing by n - 1) of the log returns of the resampled
    series, times the square root of 252, 52 or 12, times 100, rounded
    to 2 decimals. *)
Theorem volatility_is_annualized_std
    (libm : Libm) (ticker : string) (data : frame) (frequency : string) :
  Spec.periods_per_year frequency <> None ->
  Spec.gap_free frequency (adj_close_of data) = true ->
  Spec.no_nan (map snd (adj_close_of data)) = true ->
  Spec.no_nan (Spec.log_returns (Spec.resampled frequency (adj_close_of data))) = true ->
  (2 <= List.length (Spec.resampled frequency (adj_close_of data)))%nat ->
  volatility_of_data ticker data frequency
  = Ok (Spec.volatility_percent frequency (adj_close_of data)).
Proof.
  intros Hf Hg Hn Hr Hlen.
  destruct (Spec.periods_per_year frequency) as [periods|] eqn:Ep; [|congruence].
  assert (Hdata : data <> []).
  { intros ->. revert Hlen. unfold Spec.resampled. cbn.
    destruct (String.eqb frequency "weekly"), (String.eqb frequency "monthly");
      cbn; lia. }
  unfold volatility_of_data. destruct data as [|row0 rest]; [contradiction|].
  cbv zeta. erewrite prices_at_spec by eassumption. cbn [rbind fst snd].
  rewrite log_returns_of_spec by exact Hr.
  rewrite std_is_sample_std; [| exact Hr |].
  - unfold Spec.volatility_percent. rewrite Ep. reflexivity.
  - intros E. apply (f_equal (@List.length float)) in E.
    rewrite spec_log_returns_length in E. cbn [List.length] in E. lia.
Qed.

(** Three daily closes. *)
Lemma volatility_is_annualized_std_example :
  volatility_of_data "A" Scenario.steady_prices "daily"
  = Ok (Spec.volatility_percent "daily" (adj_close_of Scenario.steady_prices)).
Proof.
  apply volatility_is_annualized_std; first [ discriminate | reflexivity | cbn; lia ].
Defined.

(** C1 fails as stated. Four Friday closes, 100, 100, 100 and, two weeks
    after the third, 200: the week in between has no observation, so the
    program drops the return into the last week and finds no
    volatility, where the returns between consecutive observations have
    a standard deviation of 288 percent a year and more. *)
Lemma gapped_weeks_volatility_differs :
  let s := adj_close_of Scenario.gapped_weeks in
  Spec.increasing_dates s = true
  /\ List.length (Spec.resampled "weekly" s) = 4%nat
  /\ volatility_of_data "A" Scenario.gapped_weeks "weekly" = Ok 0%float
  /\ (288 <? Spec.volatility_percent "weekly" s)%float = true.
Proof. cbv zeta. repeat split; vm_compute; reflexivity. Qed.

(** C6, as the program has it. [calculate_volatility] raises on the
    data it was given exactly when there is no row or the frequency is
    not one of the three; with rows and a frequency of the three, a
    series that comes down to fewer than 2 prices gives NaN, not an
    exception. *)
Theorem volatility_raises_iff
    (libm : Libm) (ticker : string) (data : frame) (frequency : string) :
  (is_ok (volatility_of_data ticker data frequency) = false
   <-> data = [] \/ Spec.periods_per_year frequency = None)
  /\ (forall prices factor,
        data <> [] ->
        prices_at (adj_close_of data) frequency = Ok (prices, factor) ->
        (List.length prices <= 1)%nat ->
        volatility_of_data ticker data frequency = Ok nan).
Proof.
  split.
  - unfold volatility_of_data. destruct data as [|row0 rest].
    + cbn. split; auto.
    + cbv zeta. pose proof (prices_at_ok (adj_close_of (row0 :: rest)) frequency) as Hok.
      destruct (prices_at (adj_close_of (row0 :: rest)) frequency) as [pf|e];
        cbn [rbind is_ok] in *;
        destruct (Spec.periods_per_year frequency); try discriminate Hok.
      * split; [discriminate | intros [H | H]; discriminate H].
      * split; auto.
  - intros prices factor Hdata Hp Hlen.
    unfold volatility_of_data. destruct data as [|row0 rest]; [contradiction|].
    cbv zeta. rewrite Hp. cbn [rbind fst snd].
    rewrite std_short by (etransitivity; [apply log_returns_of_length | exact Hlen]).
    rewrite !mul_nan_l. reflexivity.
Qed.

(** No row raises; one row gives NaN. *)
Lemma volatility_raises_iff_example :
  is_ok (volatility_of_data "A" [] "daily") = false
  /\ volatility_of_data "A" Scenario.single_day "daily" = Ok nan.
Proof.
  split.
  - apply (proj1 (volatility_raises_iff ref_libm "A" [] "daily")).
    left. reflexivity.
  - apply (proj2 (volatility_raises_iff ref_libm "A" Scenario.single_day "daily")
             [100%float] (PrimFloat.sqrt 252)).
    + discriminate.
    + reflexivity.
    + cbn. lia.
Defined.

(** C6 fails as stated: one daily close is fewer than 2 observations,
    and the estimate is NaN, not an exception. *)
Lemma single_observation_gives_nan :
  List.length (Spec.resampled "daily" (adj_close_of Scenario.single_day)) = 1%nat
  /\ volatility_of_data "A" Scenario.single_day "daily" = Ok nan
  /\ volatility_of_data "A" Scenario.single_day "weekly" = Ok nan
  /\ volatility_of_data "A" Scenario.single_day "monthly" = Ok nan.
Proof. repeat split; vm_compute; reflexivity. Qed.

(* ------------------------------------------------------------------ *)
(** ** The interpolated curve *)

Lemma range_1_31 (m : Z) : In m (Py.range 1 31) <-> 1 <= m <= 30.
Proof.
  change (Py.range 1 31)
    with [1; 2; 3; 4; 5; 6; 7; 8; 9; 10; 11; 12; 13; 14; 15; 16; 17; 18; 19; 20;
          21; 22; 23; 24; 25; 26; 27; 28; 29; 30].
  cbn [In]. lia.
Qed.

Lemma find_label (df : list (Z * option float)) (m : Z) :
  match find (fun row => fst row =? m) df with
  | Some row => fst row = m /\ In m (map fst df)
  | None => ~ In m (map fst df)
  end.
Proof.
  induction df as [|row df IH]; cbn [find map In]; [tauto|].
  destruct (Z.eqb_spec (fst row) m) as [E | E]; [tauto|].
  destruct (find _ df); tauto.
Qed.

(** The label is looked for in the index and nowhere else: the lookup
    raises the [KeyError] of line 189, with the whole index in it,
    exactly when the label is not in the index. *)
Lemma risk_free_rate_key_error (df : list (Z * option float)) (ytm : Z) :
  (~ In ytm (map fst df) ->
   risk_free_rate_of df ytm = Raise (KeyError ytm (map fst df)))
  /\ (In ytm (map fst df) ->
      forall required available,
        risk_free_rate_of df ytm <> Raise (KeyError required available)).
Proof.
  unfold risk_free_rate_of. pose proof (find_label df ytm) as H.
  destruct (find _ df) as [[m [v|]]|].
  - split; [tauto | discriminate].
  - split; [tauto | discriminate].
  - split; [reflexivity | tauto].
Qed.

Lemma curve_values_index (known : list (Z * float)) (inter : list Z)
    (ys : list float) (maturities : list Z) (df : list (Z * option float)) :
  curve_values known inter ys maturities = Ok df ->
  map fst df = maturities
  /\ Forall (fun row => snd row <> None) df.
Proof.
  revert df. induction maturities as [|m rest IH]; intros df; cbn [curve_values].
  - intros H. injection H as <-. split; [reflexivity | constructor].
  - destruct (curve_value known inter ys m) as [v|e]; [|discriminate].
    cbn [rbind]. destruct (curve_values known inter ys rest) as [tl|e]; [|discriminate].
    cbn [rbind]. intros H. injection H as <-.
    destruct (IH tl eq_refl) as [Hi Hv]. cbn [map fst]. rewrite Hi.
    split; [reflexivity|]. constructor; [discriminate | exact Hv].
Qed.

(** The table has the rows 1 to 30, whatever the yields are. *)
Lemma interpolated_df_index (yields : list (string * option float))
    (df : list (Z * option float)) :
  interpolated_df_of yields = Ok df -> map fst df = Py.range 1 31.
Proof.
  unfold interpolated_df_of.
  change (known_maturities_of treasury_tickers)
    with (Ok [("1-year"%string, 1); ("5-year"%string, 5);
              ("10-year"%string, 10); ("30-year"%string, 30)]).
  cbn [rbind map snd]. change (Py.max [1; 5; 10; 30]) with (Ok 30). cbn [rbind].
  set (inter := filter _ _).
  change (Py.sorted_set ([1; 5; 10; 30] ++ inter)) with (Py.range 1 31).
  destruct (known_yields_of _ _) as [[|k known]|e]; cbn [rbind]; [| |discriminate].
  - intros H. injection H as <-. reflexivity.
  - destruct (interp _ _) as [ys|e]; cbn [rbind]; [|discriminate].
    intros H. apply curve_values_index in H. tauto.
Qed.

(** The table is always built. *)
Lemma interpolated_df_built (y1 y5 y10 y30 : option float) :
  is_ok (interpolated_df_of (yields_of y1 y5 y10 y30)) = true.
Proof.
  destruct y1, y5, y10, y30; vm_compute; reflexivity.
Qed.

(** The loop over the treasury tickers never raises and returns one
    entry per ticker, a yield or [None]. *)
Lemma yields_loop_shape (yf_download : string -> date -> date -> result frame)
    (valuation_date : date) :
  exists y1 y5 y10 y30,
    outcome (yields_loop yf_download treasury_tickers valuation_date)
    = Ok (yields_of y1 y5 y10 y30).
Proof.
  unfold treasury_tickers. cbn [yields_loop].
  destruct (fetch_treasury_yield yf_download "^IRX" valuation_date) as [t1 [y1|e1]];
  destruct (fetch_treasury_yield yf_download "^FVX" valuation_date) as [t5 [y5|e5]];
  destruct (fetch_treasury_yield yf_download "^TNX" valuation_date) as [t10 [y10|e10]];
  destruct (fetch_treasury_yield yf_download "^TYX" valuation_date) as [t30 [y30|e30]];
  cbn; do 4 eexists; reflexivity.
Qed.

(** With the four yields known, the curve is the one of the
    description: the known yields as given, the other maturities
    interpolated between the two known points around them and rounded
    to 2 decimals. *)
Lemma curve_all_present (y1 y5 y10 y30 : float) :
  interpolated_df_of (yields_of (Some y1) (Some y5) (Some y10) (Some y30))
  = Ok (map (fun m => (m, Some (Spec.curve_value y1 y5 y10 y30 m))) (Py.range 1 31)).
Proof. vm_compute. reflexivity. Qed.

(** Off the left sample, a segment is the line through its two samples
    wherever the line gives a number. *)
Lemma segment_is_linear (x0 y0 x1 y1 x : float) :
  (x0 =? x)%float = false ->
  is_nan (Spec.linear x0 y0 x1 y1 x) = false ->
  segment x0 y0 x1 y1 x = Spec.linear x0 y0 x1 y1 x.
Proof.
  unfold segment, Spec.linear. intros -> H. cbv zeta.
  rewrite H. reflexivity.
Qed.

(** C8, as the program has it. The table always has the rows 1 to 30,
    and the lookup raises the [KeyError] that lists them exactly when
    the maturity asked for is not one of them, whichever yields are
    known; so it does for 40 years. *)
Theorem lookup_raises_outside_curve (y1 y5 y10 y30 : option float) (ytm : Z) :
  exists df,
    interpolated_df_of (yields_of y1 y5 y10 y30) = Ok df
    /\ map fst df = Py.range 1 31
    /\ (risk_free_rate_of df ytm = Raise (KeyError ytm (Py.range 1 31))
        <-> ~ (1 <= ytm <= 30))
    /\ risk_free_rate_of df 40 = Raise (KeyError 40 (Py.range 1 31)).
Proof.
  pose proof (interpolated_df_built y1 y5 y10 y30) as Hok.
  destruct (interpolated_df_of (yields_of y1 y5 y10 y30)) as [df|e] eqn:E;
    [|discriminate Hok].
  exists df. split; [reflexivity|].
  pose proof (interpolated_df_index _ E) as Hi. split; [exact Hi|].
  split.
  - destruct (risk_free_rate_key_error df ytm) as [Hout Hin].
    rewrite Hi in Hout, Hin. rewrite range_1_31 in Hout, Hin. split.
    + intros H Hr. exact (Hin Hr _ _ H).
    + exact Hout.
  - destruct (risk_free_rate_key_error df 40) as [Hout _].
    rewrite Hi in Hout. apply Hout. rewrite range_1_31. lia.
Qed.

(** C8 fails as stated: with no yield known, a maturity of 4 years is
    found in the table; what stops the run is the division of [None] by
    100, a [TypeError] that lists nothing. *)
Lemma lookup_without_yields_is_type_error :
  exists df,
    interpolated_df_of (yields_of None None None None) = Ok df
    /\ forallb (fun row => match snd row with None => true | Some _ => false end) df = true
    /\ risk_free_rate_of df 4
       = Raise (TypeError "unsupported operand type(s) for /: 'NoneType' and 'int'")
    /\ outcome (main Scenario.market_without_yields (Scenario.grant ["A"%string]))
       = Raise (TypeError "unsupported operand type(s) for /: 'NoneType' and 'int'").
Proof. eexists. repeat split; vm_compute; reflexivity. Qed.

(** C2 at an input the program can receive: the yields of 1, 10 and 30
    years are 1.5, 2 and 2.5 and the fetch of the 5-year yield failed.
    The known yields are carried through, but every maturity from 2 to
    9 comes out NaN, where the line from (1, 1.5) to (10, 2) gives a
    number at each of them. *)
Theorem curve_with_missing_yield_lacks_interpolation :
  exists df,
    interpolated_df_of (yields_of (Some 1.5%float) None (Some 2%float) (Some 2.5%float))
    = Ok df
    /\ cell df 1 = Some (Some 1.5%float)
    /\ cell df 10 = Some (Some 2%float)
    /\ cell df 30 = Some (Some 2.5%float)
    /\ map (cell df) (Py.range 2 10) = repeat (Some (Some nan)) 8
    /\ forallb (fun m => negb (is_nan (round2 (Spec.linear 1 1.5 10 2 (of_Z m)))))
               (Py.range 2 10) = true.
Proof. eexists. repeat split; vm_compute; reflexivity. Qed.

(** C7 at the same input, through [main]: the five-year series cannot
    be downloaded, the other three can. The run completes with a table
    that has numbers at 1 and from 10 to 30 and NaN from 2 to 9; the
    rate looked up for 4 years and the option value are NaN. *)
Theorem curve_partially_populated :
  exists v,
    outcome (main Scenario.market_without_5y (Scenario.grant ["A"%string])) = Ok v
    /\ map fst (interpolated_df v) = Py.range 1 31
    /\ forallb (fun m => match cell (interpolated_df v) m with
                         | Some (Some y) => is_nan y
                         | _ => false
                         end) (Py.range 2 10) = true
    /\ forallb (fun m => match cell (interpolated_df v) m with
                         | Some (Some y) => negb (is_nan y)
                         | _ => false
                         end) (1 :: Py.range 10 31) = true
    /\ is_nan (risk_free_rate v) = true
    /\ is_nan (option_valuation v) = true.
Proof. eexists. repeat split; vm_compute; reflexivity. Qed.

(* ================================================================== *)
(** * Further properties *)

(* ------------------------------------------------------------------ *)
(** ** Dates and day numbers *)

Lemma month_day_checked (n : Z) (leapyear : bool) :
  0 <= n <= 364 -> month_day_ok n leapyear = true.
Proof.
  intros H.
  assert (Hall : forallb (fun k => month_day_ok (Z.of_nat k) true
                                   && month_day_ok (Z.of_nat k) false)
                         (seq 0 365) = true) by (vm_compute; reflexivity).
  rewrite forallb_forall in Hall.
  specialize (Hall (Z.to_nat n)). rewrite Z2Nat.id in Hall by lia.
  assert (Hin : In (Z.to_nat n) (seq 0 365)) by (apply in_seq; lia).
  apply Hall in Hin. apply andb_prop in Hin as [Ht Hf].
  destruct leapyear; assumption.
Qed.

Lemma is_leap_of_parts (n400 n100 n4 n1 : Z) :
  0 <= n100 <= 3 -> 0 <= n4 <= 24 -> 0 <= n1 <= 3 ->
  is_leap (n400 * 400 + 1 + n100 * 100 + n4 * 4 + n1)
  = (n1 =? 3) && (negb (n4 =? 24) || (n100 =? 3)).
Proof.
  intros H100 H4 H1. unfold is_leap.
  set (y := n400 * 400 + 1 + n100 * 100 + n4 * 4 + n1).
  assert (E4 : y mod 4 = (n1 + 1) mod 4).
  { unfold y. replace (n400 * 400 + 1 + n100 * 100 + n4 * 4 + n1)
      with (n1 + 1 + (n400 * 100 + n100 * 25 + n4) * 4) by lia.
    apply Z.mod_add. lia. }
  assert (E100 : y mod 100 = (n4 * 4 + n1 + 1) mod 100).
  { unfold y. replace (n400 * 400 + 1 + n100 * 100 + n4 * 4 + n1)
      with (n4 * 4 + n1 + 1 + (n400 * 4 + n100) * 100) by lia.
    apply Z.mod_add. lia. }
  assert (E400 : y mod 400 = (n100 * 100 + n4 * 4 + n1 + 1) mod 400).
  { unfold y. replace (n400 * 400 + 1 + n100 * 100 + n4 * 4 + n1)
      with (n100 * 100 + n4 * 4 + n1 + 1 + n400 * 400) by lia.
    apply Z.mod_add. lia. }
  rewrite E4, E100, E400.
  destruct (Z.eqb_spec n1 3) as [-> | N1].
  - change ((3 + 1) mod 4 =? 0) with true. cbn [andb].
    destruct (Z.eqb_spec n4 24) as [-> | N4].
    + change ((24 * 4 + 3 + 1) mod 100 =? 0) with true. cbn [negb orb].
      destruct (Z.eqb_spec n100 3) as [-> | N100]; [reflexivity|].
      apply Z.eqb_neq. intros E.
      apply Z.mod_divide in E; [|lia]. destruct E as [k E]. lia.
    + cbn [negb orb].
      replace ((n4 * 4 + 3 + 1) mod 100 =? 0) with false; [reflexivity|].
      symmetry. apply Z.eqb_neq. intros E.
      apply Z.mod_divide in E; [|lia]. destruct E as [k E]. lia.
  - replace ((n1 + 1) mod 4 =? 0) with false; [reflexivity|].
    symmetry. apply Z.eqb_neq. intros E.
    apply Z.mod_divide in E; [|lia]. destruct E as [k E]. lia.
Qed.

Lemma ord2ymd_parts (n : Z) :
  1 <= n <= MAXORDINAL ->
  exists n400 n100 n4 n1 r : Z,
    n - 1 = n400 * 146097 + n100 * 36524 + n4 * 1461 + n1 * 365 + r
    /\ 0 <= n400 /\ 0 <= n100 <= 4 /\ 0 <= n4 <= 24 /\ 0 <= n1 <= 4
    /\ 0 <= r <= 364
    /\ (n100 = 4 -> n4 = 0 /\ n1 = 0 /\ r = 0)
    /\ (n1 = 4 -> r = 0 /\ n4 <= 23)
    /\ ord2ymd n =
       let year := n400 * 400 + 1 + n100 * 100 + n4 * 4 + n1 in
       if (n1 =? 4) || (n100 =? 4) then mkdate (year - 1) 12 31
       else
         let leapyear := (n1 =? 3) && (negb (n4 =? 24) || (n100 =? 3)) in
         mkdate year (fst (month_day r leapyear)) (snd (month_day r leapyear)).
Proof.
  intros H. unfold MAXORDINAL in H.
  exists ((n - 1) / 146097), ((n - 1) mod 146097 / 36524),
    (((n - 1) mod 146097) mod 36524 / 1461),
    ((((n - 1) mod 146097) mod 36524) mod 1461 / 365),
    ((((n - 1) mod 146097) mod 36524) mod 1461 mod 365).
  repeat split; try (Z.div_mod_to_equations; lia).
  unfold ord2ymd, month_day, DI400Y, DI100Y, DI4Y. cbv zeta.
  repeat match goal with
         | |- context [if ?c then _ else _] => destruct c
         end; reflexivity.
Qed.

Lemma days_before_year_of_parts (n400 n100 n4 n1 : Z) :
  0 <= n100 <= 3 -> 0 <= n4 <= 24 -> 0 <= n1 <= 3 ->
  days_before_year (n400 * 400 + 1 + n100 * 100 + n4 * 4 + n1)
  = n400 * 146097 + n100 * 36524 + n4 * 1461 + n1 * 365.
Proof.
  intros H100 H4 H1. unfold days_before_year. cbv zeta.
  Z.div_mod_to_equations. lia.
Qed.

(** A day number within the range of [datetime] names a date of the
    calendar, and that date has this day number. *)
Lemma ord2ymd_toordinal (n : Z) :
  1 <= n <= MAXORDINAL ->
  valid_date (ord2ymd n) = true /\ toordinal (ord2ymd n) = n.
Proof.
  intros H.
  destruct (ord2ymd_parts H)
    as (n400 & n100 & n4 & n1 & r & En & H400 & H100 & H4 & H1 & Hr
        & S100 & S1 & ->).
  unfold MAXORDINAL in H. cbv zeta.
  destruct ((n1 =? 4) || (n100 =? 4)) eqn:Special.
  - (* the last day of a leap year *)
    assert (Y : exists m100 m4 m1,
               0 <= m100 <= 3 /\ 0 <= m4 <= 24 /\ 0 <= m1 <= 3
               /\ n400 * 400 + 1 + n100 * 100 + n4 * 4 + n1 - 1
                  = n400 * 400 + 1 + m100 * 100 + m4 * 4 + m1
               /\ (m1 =? 3) && (negb (m4 =? 24) || (m100 =? 3)) = true
               /\ n - 1 = n400 * 146097 + m100 * 36524 + m4 * 1461 + m1 * 365
                          + 365).
    { apply orb_prop in Special as [E | E]; apply Z.eqb_eq in E.
      - destruct (Z.eq_dec n100 4) as [E4 | N4].
        + destruct (S100 E4) as (_ & ? & _). lia.
        + exists n100, n4, 3. repeat split; lia.
      - destruct (S100 E) as (-> & -> & ->).
        exists 3, 24, 3. repeat split; lia. }
    destruct Y as (m100 & m4 & m1 & B100 & B4 & B1 & -> & Leap & En').
    unfold valid_date, toordinal, days_in_month, days_before_month.
    cbn [year month day].
    rewrite is_leap_of_parts, Leap, days_before_year_of_parts by assumption.
    cbn [Z.eqb Pos.eqb andb DAYS_IN_MONTH DAYS_BEFORE_MONTH Z.ltb Z.compare
         Pos.compare Pos.compare_cont].
    split; [|lia].
    unfold MINYEAR, MAXYEAR.
    repeat (apply andb_true_intro; split); apply Z.leb_le; lia.
  - apply orb_false_elim in Special as [N1 N100].
    apply Z.eqb_neq in N1, N100.
    set (leapyear := (n1 =? 3) && (negb (n4 =? 24) || (n100 =? 3))).
    pose proof (@month_day_checked r leapyear Hr) as Hmd.
    unfold month_day_ok in Hmd. cbv zeta in Hmd.
    destruct (month_day r leapyear) as [m d]. cbn [fst snd] in *.
    repeat (apply andb_prop in Hmd as [Hmd ?]).
    repeat match goal with
           | K : (_ <=? _) = true |- _ => apply Z.leb_le in K
           | K : (_ =? _) = true |- _ => apply Z.eqb_eq in K
           end.
    unfold valid_date, toordinal, days_in_month, days_before_month.
    cbn [year month day].
    rewrite is_leap_of_parts, days_before_year_of_parts by lia.
    fold leapyear.
    split.
    + unfold MINYEAR, MAXYEAR.
      repeat (apply andb_true_intro; split); apply Z.leb_le; try lia.
      destruct (Z.eqb_spec m 2) as [-> | Nm]; cbn [andb] in *;
        [destruct leapyear; cbn [DAYS_IN_MONTH] in *|]; lia.
    + lia.
Qed.

(* ------------------------------------------------------------------ *)
(** ** More facts on binary64 *)

Module MoreFloatFacts.

Local Open Scope float_scope.

Lemma add_comm (x y : float) : x + y = y + x.
Proof.
  apply Prim2SF_inj. rewrite !add_spec.
  destruct (Prim2SF x) as [[|]|[|]| |sx mx ex],
           (Prim2SF y) as [[|]|[|]| |sy my ey]; try reflexivity.
  unfold SF64add, SFadd. rewrite (Z.min_comm ey ex), Z.add_comm. reflexivity.
Qed.








Lemma not_negative_round (m e : Z) (l : location) :
  not_negative (binary_round_aux prec emax false m e l).
Proof.
  unfold binary_round_aux.
  destruct (shr_fexp prec emax m e l) as [mrs' e'].
  destruct (shr_fexp prec emax _ e' loc_Exact) as [mrs'' e''].
  destruct (shr_m mrs''); cbn; [exact I | | exact I].
  destruct (e'' <=? _)%Z; exact I.
Qed.

Lemma not_negative_normalize (m e : Z) :
  (0 <= m)%Z -> not_negative (binary_normalize prec emax m e false).
Proof.
  intros H. destruct m as [|p|p]; [exact I | | lia].
  cbn [binary_normalize]. unfold binary_round.
  destruct (shl_align _ _ _). apply not_negative_round.
Qed.

Lemma not_negative_of_Z (n : Z) : (0 <= n)%Z -> not_negative (Prim2SF (of_Z n)).
Proof.
  intros H. destruct n as [|p|p]; [exact I | | lia].
  cbn [of_Z]. rewrite of_uint63_spec. apply not_negative_normalize.
  apply Uint63.to_Z_bounded.
Qed.

Lemma not_negative_div (x : spec_float) (m : positive) (e : Z) :
  not_negative x -> not_negative (SFdiv prec emax x (S754_finite false m e)).
Proof.
  destruct x as [[|]|[|]| |[|] mx ex]; cbn [not_negative SFdiv xorb];
    try tauto.
  intros _. destruct (SFdiv_core_binary _ _ _ _ _ _) as [[mz ez] lz].
  apply not_negative_round.
Qed.

Lemma not_negative_add (x y : spec_float) :
  not_negative x -> not_negative y -> not_negative (SFadd prec emax x y).
Proof.
  destruct x as [[|]|[|]| |[|] mx ex], y as [[|]|[|]| |[|] my ey];
    cbn [not_negative SFadd]; try tauto.
  intros _ _. cbn [cond_Zopp]. apply not_negative_normalize. lia.
Qed.

Lemma round_half_even_nonneg (m : positive) (e : Z) :
  (0 <= round_half_even (Zpos m) e)%Z.
Proof.
  unfold round_half_even.
  destruct (Z.leb_spec 0 e);
    [apply Z.mul_nonneg_nonneg; [lia | apply Z.pow_nonneg; lia]|].
  cbv zeta.
  assert (Hq : (0 <= Zpos m / 2 ^ (- e))%Z)
    by (apply Z.div_pos; [lia | apply Z.pow_pos_nonneg; lia]).
  repeat match goal with |- context [if ?c then _ else _] => destruct c end; lia.
Qed.

Lemma py_round_nonneg (x : float) (n : Z) :
  not_negative (Prim2SF x) -> py_round x = Ok n -> (0 <= n)%Z.
Proof.
  unfold py_round.
  destruct (Prim2SF x) as [[|]|[|]| |[|] m e]; cbn [not_negative];
    intros H E; try contradiction; try discriminate E; injection E as <-;
    try lia.
  apply round_half_even_nonneg.
Qed.

End MoreFloatFacts.

Import MoreFloatFacts.

(* ------------------------------------------------------------------ *)
(** ** More on the years to maturity *)

(** A date moved by a number of days is a date of the calendar, that
    many days away. *)
Lemma add_days_ok (d d' : date) (k : Z) :
  add_days d k = Ok d' ->
  valid_date d' = true /\ toordinal d' = toordinal d + k.
Proof.
  unfold add_days.
  destruct ((1 <=? toordinal d + k) && (toordinal d + k <=? MAXORDINAL)) eqn:E;
    [|discriminate].
  intros H. injection H as <-.
  apply andb_prop in E as [E1 E2]. apply Z.leb_le in E1, E2.
  apply ord2ymd_toordinal. lia.
Qed.

Lemma years_to_maturity_of_valid (v e s : date) :
  valid_date v = true -> valid_date e = true -> valid_date s = true ->
  calculate_years_to_maturity v e s
  = py_round ((of_Z (toordinal e - toordinal v) / of_Z 365
               + of_Z (toordinal s - toordinal v) / of_Z 365) / 2)%float.
Proof.
  intros Hv He Hs. unfold calculate_years_to_maturity.
  rewrite !strptime_valid by assumption. reflexivity.
Qed.

(** X1. The maturity depends on the three dates only through the two
    day counts from the valuation date: moving the three dates by the
    same number of days, as [timedelta] does, leaves it unchanged. *)
Theorem years_to_maturity_shift_invariant
    (valuation_date expiration_date vesting_end_date : date)
    (valuation_date' expiration_date' vesting_end_date' : date) (days : Z) :
  valid_date valuation_date = true ->
  valid_date expiration_date = true ->
  valid_date vesting_end_date = true ->
  add_days valuation_date days = Ok valuation_date' ->
  add_days expiration_date days = Ok expiration_date' ->
  add_days vesting_end_date days = Ok vesting_end_date' ->
  calculate_years_to_maturity valuation_date' expiration_date' vesting_end_date'
  = calculate_years_to_maturity valuation_date expiration_date vesting_end_date.
Proof.
  intros Hv He Hs Av Ae As.
  apply add_days_ok in Av as [Hv' Ov], Ae as [He' Oe], As as [Hs' Os].
  rewrite !years_to_maturity_of_valid by assumption.
  rewrite Ov, Oe, Os.
  replace (toordinal expiration_date + days - (toordinal valuation_date + days))
    with (toordinal expiration_date - toordinal valuation_date) by lia.
  replace (toordinal vesting_end_date + days - (toordinal valuation_date + days))
    with (toordinal vesting_end_date - toordinal valuation_date) by lia.
  reflexivity.
Qed.

(** The grant of the description, moved by 45 days. *)
Lemma years_to_maturity_shift_example :
  calculate_years_to_maturity (mkdate 2020 2 15) (mkdate 2025 2 15) (mkdate 2023 2 15)
  = calculate_years_to_maturity (mkdate 2020 1 1) (mkdate 2025 1 1) (mkdate 2023 1 1).
Proof.
  apply (@years_to_maturity_shift_invariant
           (mkdate 2020 1 1) (mkdate 2025 1 1) (mkdate 2023 1 1)
           (mkdate 2020 2 15) (mkdate 2025 2 15) (mkdate 2023 2 15) 45);
    reflexivity.
Defined.

(** X2. The expiration date and the end of vesting play the same part:
    exchanging them does not change the maturity. *)
Theorem years_to_maturity_symmetric
    (valuation_date expiration_date vesting_end_date : date) :
  valid_date expiration_date = true ->
  valid_date vesting_end_date = true ->
  calculate_years_to_maturity valuation_date expiration_date vesting_end_date
  = calculate_years_to_maturity valuation_date vesting_end_date expiration_date.
Proof.
  intros He Hs. unfold calculate_years_to_maturity.
  rewrite (strptime_valid _ He), (strptime_valid _ Hs).
  destruct (strptime valuation_date) as [v|err]; [|reflexivity].
  cbn [rbind]. rewrite add_comm. reflexivity.
Qed.

Lemma years_to_maturity_symmetric_example :
  calculate_years_to_maturity (mkdate 2020 1 1) (mkdate 2025 1 1) (mkdate 2023 1 1)
  = calculate_years_to_maturity (mkdate 2020 1 1) (mkdate 2023 1 1) (mkdate 2025 1 1).
Proof.
  apply (@years_to_maturity_symmetric
           (mkdate 2020 1 1) (mkdate 2025 1 1) (mkdate 2023 1 1)); reflexivity.
Defined.

(** X3. When neither the expiration date nor the end of vesting is
    before the valuation date, the maturity is an integer that is not
    negative. *)
Theorem years_to_maturity_not_negative
    (valuation_date expiration_date vesting_end_date : date) :
  valid_date valuation_date = true ->
  valid_date expiration_date = true ->
  valid_date vesting_end_date = true ->
  toordinal valuation_date <= toordinal expiration_date ->
  toordinal valuation_date <= toordinal vesting_end_date ->
  exists n,
    calculate_years_to_maturity valuation_date expiration_date vesting_end_date = Ok n
    /\ 0 <= n.
Proof.
  intros Hv He Hs Le Ls.
  rewrite years_to_maturity_of_valid by assumption.
  destruct (rounded_average_returns
              (toordinal expiration_date - toordinal valuation_date)
              (toordinal vesting_end_date - toordinal valuation_date)) as [n Hn].
  exists n. split; [exact Hn|].
  apply py_round_nonneg in Hn; [exact Hn|].
  rewrite div_spec, add_spec, !div_spec.
  change (Prim2SF (of_Z 365)) with (S754_finite false 6421147906211840 (-44)).
  change (Prim2SF 2) with (S754_finite false 4503599627370496 (-51)).
  apply not_negative_div, not_negative_add;
    apply not_negative_div, not_negative_of_Z; lia.
Qed.

(** A grant that expires on its valuation date and is vested by then
    has a maturity of 0 years. *)
Lemma years_to_maturity_not_negative_example :
  exists n,
    calculate_years_to_maturity (mkdate 2020 1 1) (mkdate 2020 1 1) (mkdate 2020 1 1)
    = Ok n
    /\ 0 <= n.
Proof.
  apply (@years_to_maturity_not_negative
           (mkdate 2020 1 1) (mkdate 2020 1 1) (mkdate 2020 1 1));
    first [ reflexivity | apply Z.leb_le; reflexivity ].
Defined.

(* ------------------------------------------------------------------ *)
(** ** More on the volatility of one series *)

Section FewPrices.

Context {libm : Libm}.

Local Open Scope float_scope.

(** The first price has no return. *)
Lemma log_returns_of_cons (p0 : float) (tl : list float) :
  log_returns_of (p0 :: tl) = dropna (map np_log (ratios_after p0 tl)).
Proof.
  unfold log_returns_of, ratio_to_previous, shift1.
  cbn [combine map fst snd].
  rewrite combine_removelast, div_nan_r, np_log_nan.
  unfold dropna at 1. cbn [filter]. change (is_nan nan) with true. reflexivity.
Qed.

Lemma ratios_after_length (p0 : float) (tl : list float) :
  List.length (ratios_after p0 tl) = List.length tl.
Proof.
  revert p0. induction tl as [|p1 tl IH]; intros p0; [reflexivity|].
  cbn [ratios_after List.length]. rewrite IH. reflexivity.
Qed.

Lemma log_returns_of_length_pred (prices : list float) :
  (List.length (log_returns_of prices) <= pred (List.length prices))%nat.
Proof.
  destruct prices as [|p0 tl]; [apply Nat.le_refl|].
  rewrite log_returns_of_cons. unfold dropna.
  etransitivity; [apply filter_length_le|].
  rewrite length_map, ratios_after_length. apply Nat.le_refl.
Qed.

Lemma volatility_of_prices (ticker : string) (data : frame) (frequency : string)
    (prices : list float) (factor : float) :
  data <> [] ->
  prices_at (adj_close_of data) frequency = Ok (prices, factor) ->
  volatility_of_data ticker data frequency
  = Ok (round2 (std (log_returns_of prices) * factor * 100)).
Proof.
  intros Hd Hp. destruct data as [|row rest]; [contradiction|].
  unfold volatility_of_data. rewrite Hp. reflexivity.
Qed.

(** X4. An estimate needs three prices at the requested cadence: with
    one or two, there is at most one return, the standard deviation of
    line 30 is NaN, and [calculate_volatility] returns NaN; it does not
    raise. *)
Theorem volatility_nan_below_three_prices
    (ticker : string) (data : frame) (frequency : string)
    (prices : list float) (factor : float) :
  data <> [] ->
  prices_at (adj_close_of data) frequency = Ok (prices, factor) ->
  (List.length prices <= 2)%nat ->
  volatility_of_data ticker data frequency = Ok nan.
Proof.
  intros Hd Hp Hl. rewrite (@volatility_of_prices ticker data frequency prices factor Hd Hp).
  rewrite std_short.
  - rewrite !mul_nan_l. reflexivity.
  - pose proof (log_returns_of_length_pred prices). lia.
Qed.

End FewPrices.

(** Two daily closes. *)
Lemma volatility_nan_below_three_prices_example :
  volatility_of_data "A"
    [Scenario.row (mkdate 2019 12 30) 100; Scenario.row (mkdate 2019 12 31) 101]
    "daily"
  = Ok nan.
Proof.
  apply (@volatility_nan_below_three_prices ref_libm "A"
           [Scenario.row (mkdate 2019 12 30) 100; Scenario.row (mkdate 2019 12 31) 101]
           "daily" [100; 101]%float (PrimFloat.sqrt 252)).
  - discriminate.
  - reflexivity.
  - cbn. lia.
Defined.

Section ConstantPrice.

Context {libm : Libm}.
Variable p : float.
Variables (s : bool) (m : positive) (e : Z).
Hypothesis p_finite : Prim2SF p = S754_finite s m e.
Hypothesis log_one : np_log 1 = 0%float.

Local Open Scope float_scope.


Lemma div_nan_l (x : float) : nan / x = nan.
Proof. by_spec div_spec x. Qed.







End ConstantPrice.



(* ------------------------------------------------------------------ *)
(** ** Fetching a treasury yield *)

Section Fetch.

Variable yf_download : string -> date -> date -> result frame.

(** The run of one fetch, for a date of the calendar. *)
Lemma fetch_treasury_yield_run (ticker : string) (date_ : date) :
  valid_date date_ = true ->
  toordinal date_ < MAXORDINAL ->
  let start_date := ord2ymd (toordinal date_ - 7) in
  let end_date := ord2ymd (toordinal date_ + 1) in
  (8 <= toordinal date_ ->
     valid_date start_date = true
     /\ valid_date end_date = true
     /\ toordinal start_date = toordinal date_ - 7
     /\ toordinal end_date = toordinal date_ + 1
     /\ trace (fetch_treasury_yield yf_download ticker date_)
        = [EvDownload ticker start_date end_date]
     /\ outcome (fetch_treasury_yield yf_download ticker date_)
        = match yf_download ticker start_date end_date with
          | Raise e => Raise e
          | Ok [] => Raise (ValueError ("No data found for " ++ ticker))
          | Ok (row0 :: rest) =>
              Ok (round2
                    (match find (fun row => date_eqb (fst row) date_) (row0 :: rest) with
                     | Some row => Close (snd row)
                     | None => Close (snd (last rest row0))
                     end))
          end)
  /\ (toordinal date_ < 8 ->
      fetch_treasury_yield yf_download ticker date_ = ([], Raise OverflowError)).
Proof.
  intros Hv Hmax start_date' end_date'. unfold fetch_treasury_yield.
  rewrite (strptime_valid _ Hv), bind_lift. split.
  - intros Hmin.
    destruct (add_days date_ (-7)) as [start_date|err] eqn:Es;
      [| unfold add_days in Es;
         replace ((1 <=? toordinal date_ + -7) && (toordinal date_ + -7 <=? MAXORDINAL))
           with true in Es by (symmetry; apply andb_true_intro;
                               split; apply Z.leb_le; lia);
         discriminate Es].
    destruct (add_days date_ 1) as [end_date|err] eqn:Ee;
      [| unfold add_days in Ee;
         replace ((1 <=? toordinal date_ + 1) && (toordinal date_ + 1 <=? MAXORDINAL))
           with true in Ee by (symmetry; apply andb_true_intro;
                               split; apply Z.leb_le; lia);
         discriminate Ee].
    assert (start_date = start_date' /\ end_date = end_date') as [<- <-].
    { unfold add_days in Es, Ee.
      destruct (_ && _) in Es; [|discriminate Es].
      destruct (_ && _) in Ee; [|discriminate Ee].
      injection Es as <-. injection Ee as <-. split; reflexivity. }
    apply add_days_ok in Es as [Hs Os], Ee as [He Oe].
    repeat (split; [first [assumption | lia]|]).
    rewrite !bind_lift. unfold download.
    destruct (yf_download ticker start_date end_date) as [[|row0 rest]|err];
      split; try reflexivity.
    cbn [bind ret outcome snd]. do 3 f_equal.
    destruct (find _ (row0 :: rest)); [reflexivity|].
    destruct rest; reflexivity.
  - intros Hmin. unfold add_days at 1.
    replace ((1 <=? toordinal date_ + -7) && (toordinal date_ + -7 <=? MAXORDINAL))
      with false; [reflexivity|].
    symmetry. apply andb_false_intro1. apply Z.leb_gt. lia.
Qed.


End Fetch.


(* ------------------------------------------------------------------ *)
(** ** The loop over the treasury tickers *)

Section YieldsLoop.

Variable yf_download : string -> date -> date -> result frame.
Variable valuation_date : date.

Local Abbreviation fetch ticker_symbol :=
  (fetch_treasury_yield yf_download ticker_symbol valuation_date).

(** A fetch does nothing but download, at most once. *)
Lemma fetch_trace (ticker_symbol : string) :
  trace (fetch ticker_symbol) = []
  \/ exists start_date end_date,
       trace (fetch ticker_symbol) = [EvDownload ticker_symbol start_date end_date].
Proof.
  unfold fetch_treasury_yield.
  destruct (strptime valuation_date) as [d|err]; rewrite bind_lift; [|left; reflexivity].
  destruct (add_days d (-7)) as [s|err]; rewrite bind_lift; [|left; reflexivity].
  destruct (add_days d 1) as [e|err]; rewrite bind_lift; [|left; reflexivity].
  right. exists s, e. unfold download.
  destruct (yf_download ticker_symbol s e) as [[|row0 rest]|err]; reflexivity.
Qed.

Lemma fetch_prints_nothing (ticker_symbol : string) :
  printed_errors (trace (fetch ticker_symbol)) = []
  /\ downloads (trace (fetch ticker_symbol)) = trace (fetch ticker_symbol).
Proof.
  destruct (fetch_trace ticker_symbol) as [-> | (s & e & ->)]; split; reflexivity.
Qed.

Lemma yields_loop_run (tickers : list (string * string)) :
  yields_loop yf_download tickers valuation_date
  = (flat_map (fun t => trace (fetch (snd t))
                        ++ match outcome (fetch (snd t)) with
                           | Ok _ => []
                           | Raise e => [EvPrintError (fst t) e]
                           end) tickers,
     Ok (map (fun t => (fst t, match outcome (fetch (snd t)) with
                               | Ok y => Some y
                               | Raise _ => None
                               end)) tickers)).
Proof.
  induction tickers as [|[ticker_name ticker_symbol] rest IH]; [reflexivity|].
  cbn [yields_loop map flat_map fst snd]. rewrite IH.
  destruct (fetch ticker_symbol) as [t [y|err]];
    cbn [bind try_except ret tell app outcome trace fst snd];
    rewrite ?app_nil_r, <- ?app_assoc; reflexivity.
Qed.

End YieldsLoop.

Lemma yields_loop_effects
    (yf_download : string -> date -> date -> result frame)
    (tickers : list (string * string)) (valuation_date : date) :
  let fetched ticker_symbol :=
    fetch_treasury_yield yf_download ticker_symbol valuation_date in
  let run := yields_loop yf_download tickers valuation_date in
  printed_errors (trace run)
  = flat_map (fun t => match outcome (fetched (snd t)) with
                       | Ok _ => []
                       | Raise e => [(fst t, e)]
                       end) tickers
  /\ downloads (trace run) = flat_map (fun t => trace (fetched (snd t))) tickers.
Proof.
  cbv zeta. rewrite yields_loop_run. cbn [trace fst].
  induction tickers as [|t rest [IHp IHd]]; [split; reflexivity|].
  cbn [flat_map].
  rewrite !printed_errors_app, !downloads_app, IHp, IHd.
  destruct (fetch_prints_nothing yf_download valuation_date (snd t)) as [-> ->].
  destruct (outcome (fetch_treasury_yield yf_download (snd t) valuation_date));
    cbn [printed_errors downloads flat_map filter app];
    rewrite ?app_nil_r; split; reflexivity.
Qed.

(** X7. The loop of lines 133-142 never raises. It returns one entry
    per treasury ticker, in order and under the ticker's name: the
    yield when the fetch returned, [None] when it raised; each failure
    is printed with the ticker's name and the exception; and the
    downloads of the loop are those of the fetches, in order. *)
Theorem yields_loop_records_every_ticker
    (yf_download : string -> date -> date -> result frame)
    (tickers : list (string * string)) (valuation_date : date) :
  let fetched ticker_symbol :=
    fetch_treasury_yield yf_download ticker_symbol valuation_date in
  let run := yields_loop yf_download tickers valuation_date in
  outcome run
  = Ok (map (fun t => (fst t, match outcome (fetched (snd t)) with
                              | Ok y => Some y
                              | Raise _ => None
                              end)) tickers)
  /\ printed_errors (trace run)
     = flat_map (fun t => match outcome (fetched (snd t)) with
                          | Ok _ => []
                          | Raise e => [(fst t, e)]
                          end) tickers
  /\ downloads (trace run) = flat_map (fun t => trace (fetched (snd t))) tickers.
Proof.
  cbv zeta. split; [rewrite yields_loop_run; reflexivity|].
  exact (yields_loop_effects yf_download tickers valuation_date).
Qed.

(* ------------------------------------------------------------------ *)
(** ** More on the interpolated curve *)

Lemma curve_cells (y1 y5 y10 y30 : option float) :
  exists df,
    interpolated_df_of (yields_of y1 y5 y10 y30) = Ok df
    /\ match y1, y5, y10, y30 with
       | None, None, None, None => Forall (fun row => snd row = None) df
       | _, _, _, _ =>
           Forall (fun row => snd row <> None) df
           /\ cell df 1 = Some (Some (or_nan y1))
           /\ cell df 5 = Some (Some (or_nan y5))
           /\ cell df 10 = Some (Some (or_nan y10))
           /\ cell df 30 = Some (Some (or_nan y30))
       end.
Proof.
  destruct y1 as [y1|], y5 as [y5|], y10 as [y10|], y30 as [y30|];
    (eexists; split; [vm_compute; reflexivity|]);
    repeat split;
    repeat (constructor; [first [discriminate | reflexivity]|]); constructor.
Qed.

(** X8. The table keeps what was fetched. With no yield fetched every
    cell is [None]. As soon as one yield is fetched no cell is [None]:
    at the maturities 1, 5, 10 and 30 the cell is the fetched yield,
    unrounded and unchanged, and NaN where the fetch failed. *)
Theorem curve_carries_fetched_yields (y1 y5 y10 y30 : option float) :
  exists df,
    interpolated_df_of (yields_of y1 y5 y10 y30) = Ok df
    /\ map fst df = Py.range 1 31
    /\ match y1, y5, y10, y30 with
       | None, None, None, None => Forall (fun row => snd row = None) df
       | _, _, _, _ =>
           Forall (fun row => snd row <> None) df
           /\ cell df 1 = Some (Some (or_nan y1))
           /\ cell df 5 = Some (Some (or_nan y5))
           /\ cell df 10 = Some (Some (or_nan y10))
           /\ cell df 30 = Some (Some (or_nan y30))
       end.
Proof.
  destruct (curve_cells y1 y5 y10 y30) as (df & Hdf & Hcells).
  exists df. split; [exact Hdf|]. split; [|exact Hcells].
  exact (interpolated_df_index _ Hdf).
Qed.

Lemma in_range_1_31 (m : Z) :
  1 <= m <= 30 ->
  In m [1; 2; 3; 4; 5; 6; 7; 8; 9; 10; 11; 12; 13; 14; 15; 16; 17; 18; 19; 20;
        21; 22; 23; 24; 25; 26; 27; 28; 29; 30].
Proof. intros H. apply range_1_31 in H. exact H. Qed.

(** X9. With the four yields fetched, the rate looked up for a maturity
    between 1 and 30 years is one hundredth of the curve at that
    maturity: the fetched yield at 1, 5, 10 and 30 years, and at any
    other maturity the segment of [np.interp] between the two fetched
    yields around it, rounded to 2 decimals. *)
Theorem risk_free_rate_on_full_curve (y1 y5 y10 y30 : float) (ytm : Z) :
  1 <= ytm <= 30 ->
  exists df,
    interpolated_df_of (yields_of (Some y1) (Some y5) (Some y10) (Some y30)) = Ok df
    /\ risk_free_rate_of df ytm
       = Ok (Spec.curve_value y1 y5 y10 y30 ytm / 100)%float.
Proof.
  intros H. eexists. split; [apply curve_all_present|].
  apply in_range_1_31 in H. cbn [In] in H.
  repeat (destruct H as [<- | H]; [vm_compute; reflexivity|]).
  contradiction.
Qed.

(** Yields of 1.5, 1.75, 2 and 2.5 percent: the rate for 4 years is
    0.0169, from the 1.69 that the segment between 1.5 at 1 year and
    1.75 at 5 years gives. *)
Lemma risk_free_rate_on_full_curve_example :
  exists df,
    interpolated_df_of (yields_of (Some 1.5%float) (Some 1.75%float)
                                  (Some 2%float) (Some 2.5%float)) = Ok df
    /\ risk_free_rate_of df 4
       = Ok (round2 (segment 1 1.5 5 1.75 4) / 100)%float.
Proof.
  apply (@risk_free_rate_on_full_curve 1.5%float 1.75%float 2%float 2.5%float 4).
  lia.
Defined.

Section FlatCurve.

Local Open Scope float_scope.

Lemma sub_diag_finite (y : float) (s : bool) (m : positive) (e : Z) :
  Prim2SF y = S754_finite s m e -> y - y = 0.
Proof.
  intros H. apply Prim2SF_inj. rewrite sub_spec, H.
  unfold SF64sub, SFsub. rewrite Z.sub_diag. reflexivity.
Qed.

Lemma add_0_l (y : float) (s : bool) (m : positive) (e : Z) :
  Prim2SF y = S754_finite s m e -> 0 + y = y.
Proof.
  intros H. apply Prim2SF_inj. rewrite add_spec, H. reflexivity.
Qed.

(** Between two equal ordinates a segment is level. *)
Lemma segment_flat (x0 x1 x y : float) (s : bool) (m : positive) (e : Z) :
  Prim2SF y = S754_finite s m e ->
  (x0 =? x) = false ->
  0 / (x1 - x0) = 0 ->
  0 * (x - x0) = 0 ->
  segment x0 y x1 y x = y.
Proof.
  intros Hy Hx Hd Hm. unfold segment. rewrite Hx. cbv zeta.
  rewrite (sub_diag_finite y Hy), Hd, Hm, (add_0_l y Hy).
  replace (is_nan y) with false; [reflexivity|].
  destruct (is_nan y) eqn:E; [|reflexivity].
  apply is_nan_Prim2SF in E. congruence.
Qed.

End FlatCurve.

(** X10. Interpolation keeps a level curve level: when the four fetched
    yields are the same finite number that is not zero, the table has
    that number at 1, 5, 10 and 30 years and its rounding to 2 decimals
    at every other maturity. *)
Theorem flat_curve_stays_flat (y : float) (s : bool) (m : positive) (e : Z) :
  Prim2SF y = S754_finite s m e ->
  interpolated_df_of (yields_of (Some y) (Some y) (Some y) (Some y))
  = Ok (map (fun maturity =>
               (maturity, Some (if is_known_maturity maturity then y else round2 y)))
            (Py.range 1 31)).
Proof.
  intros Hy. rewrite curve_all_present. f_equal.
  apply map_ext_in. intros k Hk. apply range_1_31, in_range_1_31 in Hk.
  cbn [In] in Hk.
  repeat (destruct Hk as [<- | Hk];
          [ first [ reflexivity
                  | unfold Spec.curve_value; cbn [Z.eqb Z.ltb Z.compare Pos.eqb
                      Pos.compare Pos.compare_cont is_known_maturity Py.mem existsb orb];
                    rewrite (@segment_flat _ _ _ y s m e Hy); reflexivity ] |]).
  contradiction.
Qed.

(** Four yields of 2 percent. *)
Lemma flat_curve_stays_flat_example :
  interpolated_df_of (yields_of (Some 2%float) (Some 2%float) (Some 2%float) (Some 2%float))
  = Ok (map (fun maturity => (maturity, Some 2%float)) (Py.range 1 31)).
Proof.
  rewrite (@flat_curve_stays_flat 2%float false 4503599627370496%positive (-51) eq_refl).
  reflexivity.
Defined.

(* ------------------------------------------------------------------ *)
(** ** The run as a whole *)

Section Run.

Context {libm : Libm}.
Variable yf_download : string -> date -> date -> result frame.
Variable cfg : config.

Local Abbreviation the_frequency :=
  (match frequency cfg with Some f => f | None => "daily"%string end).

Local Abbreviation fetched ticker_symbol :=
  (fetch_treasury_yield yf_download ticker_symbol (valuation_date cfg)).

Local Abbreviation yield_of ticker_symbol :=
  (match outcome (fetched ticker_symbol) with Ok y => Some y | Raise _ => None end).


Lemma history_window_dates (ytm : Z) (start_date end_date : date) :
  history_window cfg = Ok (ytm, start_date, end_date) ->
  calculate_years_to_maturity (valuation_date cfg) (expiration_date cfg)
    (vesting_end_date cfg) = Ok ytm
  /\ end_date = valuation_date cfg
  /\ valid_date (valuation_date cfg) = true
  /\ valid_date (expiration_date cfg) = true
  /\ valid_date (vesting_end_date cfg) = true.
Proof.
  unfold history_window. intros H.
  destruct (calculate_years_to_maturity _ _ _) as [n|err] eqn:En; [|discriminate H].
  cbn [rbind] in H.
  assert (Hd : valid_date (valuation_date cfg) = true
               /\ valid_date (expiration_date cfg) = true
               /\ valid_date (vesting_end_date cfg) = true).
  { unfold calculate_years_to_maturity, strptime in En.
    destruct (valid_date (valuation_date cfg)); [|discriminate En].
    destruct (valid_date (expiration_date cfg)); [|discriminate En].
    destruct (valid_date (vesting_end_date cfg)); [|discriminate En].
    auto. }
  rewrite (strptime_valid _ (proj1 Hd)) in H. cbn [rbind] in H.
  destruct (replace_year _ _) as [sd|err]; [|discriminate H].
  cbn [rbind] in H. injection H as <- <- <-. tauto.
Qed.

(** What [main] does once the window is known: the two loops, then the
    table, the lookup and the pricer, which write nothing. *)
Lemma main_unfolded (ytm : Z) (start_date end_date : date) :
  history_window cfg = Ok (ytm, start_date, end_date) ->
  let rows := flat_map (ticker_rows yf_download start_date end_date the_frequency)
                       (public_comps cfg) in
  let yields := map (fun t => (fst t, yield_of (snd t))) treasury_tickers in
  trace (main yf_download cfg)
  = flat_map (ticker_events yf_download start_date end_date the_frequency)
             (public_comps cfg)
    ++ trace (yields_loop yf_download treasury_tickers (valuation_date cfg))
  /\ outcome (main yf_download cfg)
     = rbind (interpolated_df_of yields) (fun df =>
       rbind (risk_free_rate_of df ytm) (fun rate =>
       rbind (black_scholes (stock_price cfg) (strike_price cfg) ytm rate
                (average_volatility_of rows)) (fun price =>
       Ok (mkvaluation ytm (volatility_df rows) df rate
             (average_volatility_of rows) price)))).
Proof.
  intros Hw rows yields.
  rewrite (main_run libm yf_download cfg Hw). unfold main_from.
  rewrite volatilities_loop_run. fold rows.
  unfold main_after_volatilities.
  rewrite yields_loop_run. fold yields.
  cbn [bind trace outcome fst snd].
  destruct (interpolated_df_of yields) as [df|err];
    cbn [lift bind rbind fst snd]; [|rewrite !app_nil_r; split; reflexivity].
  destruct (risk_free_rate_of df ytm) as [rate|err];
    cbn [lift bind rbind fst snd]; [|rewrite !app_nil_r; split; reflexivity].
  destruct (black_scholes _ _ ytm rate _) as [price|err];
    cbn [lift bind rbind ret fst snd]; rewrite !app_nil_r; split; reflexivity.
Qed.

Lemma treasury_yields :
  map (fun t => (fst t, yield_of (snd t))) treasury_tickers
  = yields_of (yield_of "^IRX") (yield_of "^FVX") (yield_of "^TNX") (yield_of "^TYX").
Proof. reflexivity. Qed.

(** The lookup in a table built from the fetched yields. *)
Lemma lookup_in_built_table (y1 y5 y10 y30 : option float) (ytm : Z) :
  exists df,
    interpolated_df_of (yields_of y1 y5 y10 y30) = Ok df
    /\ map fst df = Py.range 1 31
    /\ (~ 1 <= ytm <= 30 ->
        risk_free_rate_of df ytm = Raise (KeyError ytm (Py.range 1 31)))
    /\ (1 <= ytm <= 30 ->
        match y1, y5, y10, y30 with
        | None, None, None, None =>
            risk_free_rate_of df ytm
            = Raise (TypeError "unsupported operand type(s) for /: 'NoneType' and 'int'")
        | _, _, _, _ => exists rate, risk_free_rate_of df ytm = Ok rate
        end).
Proof.
  destruct (curve_cells y1 y5 y10 y30) as (df & Hdf & Hcells).
  exists df. split; [exact Hdf|].
  pose proof (interpolated_df_index _ Hdf) as Hi. split; [exact Hi|].
  split.
  - intros Hout. destruct (risk_free_rate_key_error df ytm) as [Hk _].
    rewrite Hi in Hk. apply Hk. rewrite range_1_31. exact Hout.
  - intros Hin.
    assert (Hrow : exists row, find (fun row => fst row =? ytm) df = Some row
                               /\ In row df).
    { pose proof (find_label df ytm) as Hf.
      destruct (find (fun row => fst row =? ytm) df) as [row|] eqn:Ef.
      - exists row. split; [reflexivity|]. exact (proj1 (find_some _ _ Ef)).
      - exfalso. apply Hf. rewrite Hi. apply range_1_31. exact Hin. }
    destruct Hrow as ([k c] & Ef & Hr).
    unfold risk_free_rate_of. rewrite Ef.
    destruct y1, y5, y10, y30;
      try (destruct Hcells as [Hall _]; rewrite Forall_forall in Hall;
           specialize (Hall _ Hr); cbn [snd] in Hall;
           destruct c as [v|]; [eauto | contradiction]).
    rewrite Forall_forall in Hcells. specialize (Hcells _ Hr).
    cbn [snd] in Hcells. rewrite Hcells. reflexivity.
Qed.

End Run.



(** X12. A run that returns has a maturity between 1 and 30 years, a
    strike price that is not zero and at least one fetched treasury
    yield; the rate it reports is the one looked up in the table it
    reports, at that maturity, and its option value is the pricer's on
    the configured prices and the reported maturity, rate and
    volatility. *)
Theorem main_result_consistent
    (libm : Libm) (yf_download : string -> date -> date -> result frame)
    (cfg : config) (v : valuation) :
  outcome (main yf_download cfg) = Ok v ->
  calculate_years_to_maturity (valuation_date cfg) (expiration_date cfg)
    (vesting_end_date cfg) = Ok (years_to_maturity v)
  /\ 1 <= years_to_maturity v <= 30
  /\ (exists t, In t treasury_tickers
                /\ is_ok (outcome (fetch_treasury_yield yf_download (snd t)
                                     (valuation_date cfg))) = true)
  /\ map fst (interpolated_df v) = Py.range 1 31
  /\ risk_free_rate_of (interpolated_df v) (years_to_maturity v)
     = Ok (risk_free_rate v)
  /\ (strike_price cfg =? 0)%float = false
  /\ black_scholes (stock_price cfg) (strike_price cfg) (years_to_maturity v)
       (risk_free_rate v) (average_volatility v)
     = Ok (option_valuation v).
Proof.
  intros Hv.
  destruct (history_window cfg) as [[[ytm start_date] end_date]|err] eqn:Hw;
    [| unfold main in Hv; rewrite Hw in Hv; discriminate Hv].
  destruct (main_unfolded yf_download cfg Hw) as [_ Ho]. cbv zeta in Ho.
  rewrite Ho in Hv. clear Ho. rewrite treasury_yields in Hv.
  remember (match outcome (fetch_treasury_yield yf_download "^IRX" _) with
            | Ok y => Some y | Raise _ => None end) as y1 eqn:E1.
  remember (match outcome (fetch_treasury_yield yf_download "^FVX" _) with
            | Ok y => Some y | Raise _ => None end) as y5 eqn:E5.
  remember (match outcome (fetch_treasury_yield yf_download "^TNX" _) with
            | Ok y => Some y | Raise _ => None end) as y10 eqn:E10.
  remember (match outcome (fetch_treasury_yield yf_download "^TYX" _) with
            | Ok y => Some y | Raise _ => None end) as y30 eqn:E30.
  destruct (lookup_in_built_table y1 y5 y10 y30 ytm)
    as (df & Hdf & Hi & Hout & Hin).
  rewrite Hdf in Hv. cbn [rbind] in Hv.
  destruct (risk_free_rate_of df ytm) as [rate|err] eqn:Hr; [|discriminate Hv].
  cbn [rbind] in Hv.
  destruct (black_scholes _ _ ytm rate _) as [price|err] eqn:Hb; [|discriminate Hv].
  cbn [rbind] in Hv. injection Hv as <-.
  cbn [years_to_maturity interpolated_df risk_free_rate average_volatility
       option_valuation].
  assert (Hrange : 1 <= ytm <= 30).
  { destruct (Z_le_dec 1 ytm) as [H1|H1]; [destruct (Z_le_dec ytm 30) as [H30|H30]|];
      [lia | |]; specialize (Hout ltac:(lia)); congruence. }
  split; [exact (proj1 (history_window_dates cfg Hw))|].
  split; [exact Hrange|].
  split.
  { specialize (Hin Hrange).
    assert (Hsome : forall sym,
              match outcome (fetch_treasury_yield yf_download sym (valuation_date cfg)) with
              | Ok y => Some y | Raise _ => None end <> None ->
              is_ok (outcome (fetch_treasury_yield yf_download sym (valuation_date cfg)))
              = true).
    { intros sym.
      destruct (outcome (fetch_treasury_yield yf_download sym (valuation_date cfg)));
        [reflexivity | congruence]. }
    destruct y1 as [v1|];
      [exists ("1-year", "^IRX")%string; split;
         [cbn; tauto | cbn [snd]; apply Hsome; rewrite <- E1; discriminate]|].
    destruct y5 as [v5|];
      [exists ("5-year", "^FVX")%string; split;
         [cbn; tauto | cbn [snd]; apply Hsome; rewrite <- E5; discriminate]|].
    destruct y10 as [v10|];
      [exists ("10-year", "^TNX")%string; split;
         [cbn; tauto | cbn [snd]; apply Hsome; rewrite <- E10; discriminate]|].
    destruct y30 as [v30|];
      [exists ("30-year", "^TYX")%string; split;
         [cbn; tauto | cbn [snd]; apply Hsome; rewrite <- E30; discriminate]|].
    congruence. }
  split; [exact Hi|]. split; [exact Hr|].
  split; [|exact Hb].
  unfold black_scholes in Hb.
  destruct (strike_price cfg =? 0)%float; [discriminate Hb | reflexivity].
Qed.

(** The grant of the description, on the sample market. *)
Lemma main_result_consistent_example :
  exists v,
    outcome (main Scenario.market (Scenario.grant ["A"%string])) = Ok v
    /\ years_to_maturity v = 4
    /\ risk_free_rate_of (interpolated_df v) 4 = Ok (risk_free_rate v).
Proof.
  destruct (outcome (main Scenario.market (Scenario.grant ["A"%string])))
    as [v|err] eqn:Hv; [|vm_compute in Hv; discriminate Hv].
  exists v. split; [reflexivity|].
  destruct (@main_result_consistent ref_libm Scenario.market
              (Scenario.grant ["A"%string]) v Hv) as (Hy & _ & _ & _ & Hr & _).
  assert (E : years_to_maturity v = 4).
  { change (calculate_years_to_maturity _ _ _) with (Ok 4 : result Z) in Hy.
    congruence. }
  split; [exact E|]. rewrite <- E. exact Hr.
Defined.

(** X13. Once the dates have given a window, the downloads of a run are
    fixed: one per comparable ticker, in the order of the
    configuration, each for the window of the price history; then one
    per treasury ticker, in the order ^IRX, ^FVX, ^TNX, ^TYX, each for
    the eight days around the valuation date. This holds also when the
    run raises afterwards. *)
Theorem main_downloads
    (libm : Libm) (yf_download : string -> date -> date -> result frame)
    (cfg : config) (ytm : Z) (start_date end_date : date) :
  history_window cfg = Ok (ytm, start_date, end_date) ->
  8 <= toordinal (valuation_date cfg) < MAXORDINAL ->
  let week_before := ord2ymd (toordinal (valuation_date cfg) - 7) in
  let day_after := ord2ymd (toordinal (valuation_date cfg) + 1) in
  downloads (trace (main yf_download cfg))
  = map (fun ticker => EvDownload ticker start_date end_date) (public_comps cfg)
    ++ map (fun ticker_symbol => EvDownload ticker_symbol week_before day_after)
           ["^IRX"; "^FVX"; "^TNX"; "^TYX"]%string.
Proof.
  intros Hw Hd week_before day_after.
  destruct (main_unfolded yf_download cfg Hw) as [Ht _]. rewrite Ht.
  rewrite downloads_app, downloads_of_loop. f_equal.
  destruct (yields_loop_effects yf_download treasury_tickers (valuation_date cfg))
    as [_ ->].
  destruct (history_window_dates cfg Hw) as (_ & _ & Hv & _).
  unfold treasury_tickers. cbn [flat_map map snd].
  assert (Hf : forall ticker_symbol,
            trace (fetch_treasury_yield yf_download ticker_symbol (valuation_date cfg))
            = [EvDownload ticker_symbol week_before day_after]).
  { intros ticker_symbol.
    destruct (@fetch_treasury_yield_run yf_download ticker_symbol (valuation_date cfg)
                Hv (proj2 Hd)) as [H _].
    exact (proj1 (proj2 (proj2 (proj2 (proj2 (H (proj1 Hd))))))). }
  rewrite !Hf. reflexivity.
Qed.

(** The grant of the description with two comparable tickers: two
    downloads of four years of prices, then the four treasury series
    around the valuation date. *)
Lemma main_downloads_example :
  downloads (trace (main Scenario.market (Scenario.grant ["A"; "B"]%string)))
  = [EvDownload "A" (mkdate 2016 1 1) (mkdate 2020 1 1);
     EvDownload "B" (mkdate 2016 1 1) (mkdate 2020 1 1);
     EvDownload "^IRX" (mkdate 2019 12 25) (mkdate 2020 1 2);
     EvDownload "^FVX" (mkdate 2019 12 25) (mkdate 2020 1 2);
     EvDownload "^TNX" (mkdate 2019 12 25) (mkdate 2020 1 2);
     EvDownload "^TYX" (mkdate 2019 12 25) (mkdate 2020 1 2)]%string.
Proof.
  rewrite (@main_downloads ref_libm Scenario.market (Scenario.grant ["A"; "B"]%string)
             4 (mkdate 2016 1 1) (mkdate 2020 1 1) eq_refl); [reflexivity|].
  split; [apply Z.leb_le; reflexivity | reflexivity].
Defined.

(* ------------------------------------------------------------------ *)
(** ** The average and the rows that are NaN *)

Lemma dropna_filter_rows (rows : list (string * float)) :
  dropna (map snd (filter (fun r => negb (is_nan (snd r))) rows))
  = dropna (map snd rows).
Proof.
  unfold dropna. induction rows as [|[t x] rows IH]; [reflexivity|].
  cbn [filter map snd]. destruct (is_nan x) eqn:E; cbn [negb map filter snd].
  - exact IH.
  - rewrite E. cbn [negb]. rewrite IH. reflexivity.
Qed.

(** X14. A ticker whose volatility is NaN keeps its row in the table
    that is written out, but does not count in the average: the average
    volatility is the one of the rows that hold a number. *)
Theorem nan_rows_do_not_count (volatilities : list (string * float)) :
  average_volatility_of volatilities
  = average_volatility_of (filter (fun r => negb (is_nan (snd r))) volatilities)
  /\ map fst (volatility_df volatilities)
     = map fst volatilities ++ ["Average"%string].
Proof.
  split.
  - rewrite !average_volatility_is_mean. unfold mean.
    rewrite dropna_filter_rows. reflexivity.
  - unfold volatility_df. rewrite map_app, map_map. reflexivity.
Qed.

(* ------------------------------------------------------------------ *)
(** ** The report *)

(** X15. The report comes after everything else. When the run up to the
    pricer returns, building the report downloads nothing more, and the
    only thing that can still stop it is the grant date: with a grant
    date of the calendar the report has its ten entries, the dates
    written as month/day/year, the rate and the volatility rounded to 4
    decimals and the option value to 2; with any other grant date the
    run ends in a [ValueError], after all the downloads and the
    pricing. *)
Theorem report_stops_on_grant_date_only
    (libm : Libm) (yf_download : string -> date -> date -> result frame)
    (cfg : config) (grant_date : date) (v : valuation) :
  outcome (main yf_download cfg) = Ok v ->
  let run := main_with_report yf_download cfg grant_date in
  trace run = trace (main yf_download cfg)
  /\ (valid_date grant_date = true ->
      outcome run
      = Ok (v, [("Grant date", Text (strftime_mdY grant_date));
                ("Valuation date", Text (strftime_mdY (valuation_date cfg)));
                ("Expiration date", Text (strftime_mdY (expiration_date cfg)));
                ("Vesting end date", Text (strftime_mdY (vesting_end_date cfg)));
                ("Stock price", Number (stock_price cfg));
                ("Strike/Exercise price", Number (strike_price cfg));
                ("Years to maturity (YTM)", Integer (years_to_maturity v));
                ("Risk free rate", Number (round4 (risk_free_rate v)));
                ("Volatility", Number (round4 (average_volatility v)));
                ("Option Valuation", Number (round2 (option_valuation v)))]%string))
  /\ (valid_date grant_date = false ->
      exists msg, outcome run = Raise (ValueError msg)).
Proof.
  intros Hv run.
  assert (Hd : valid_date (valuation_date cfg) = true
               /\ valid_date (expiration_date cfg) = true
               /\ valid_date (vesting_end_date cfg) = true).
  { destruct (history_window cfg) as [[[ytm start_date] end_date]|err] eqn:Hw;
      [| unfold main in Hv; rewrite Hw in Hv; discriminate Hv].
    exact (proj2 (proj2 (history_window_dates cfg Hw))). }
  destruct Hd as (Hvd & Hed & Hsd).
  unfold run, main_with_report.
  destruct (main yf_download cfg) as [t r]. cbn [outcome snd] in Hv. subst r.
  cbn [bind trace fst]. unfold input_data_of.
  rewrite (strptime_valid _ Hvd), (strptime_valid _ Hed), (strptime_valid _ Hsd).
  unfold strptime.
  destruct (valid_date grant_date);
    cbn [rbind lift bind ret fst snd outcome]; rewrite ?app_nil_r.
  - split; [reflexivity|]. split; [reflexivity | discriminate].
  - split; [reflexivity|]. split; [discriminate | eauto].
Qed.

(** The grant of the description, granted on 2019-06-15: the report
    opens with the grant date as 6/15/2019 and the valuation date as
    1/1/2020. Granted on a 30th of February, the same run ends in a
    [ValueError] after its five downloads. *)
Lemma report_stops_on_grant_date_only_example :
  (exists v rows,
     outcome (main_with_report Scenario.market (Scenario.grant ["A"%string])
                (mkdate 2019 6 15)) = Ok (v, rows)
     /\ firstn 2 rows = [("Grant date", Text "6/15/2019");
                         ("Valuation date", Text "1/1/2020")]%string)
  /\ (exists msg,
        outcome (main_with_report Scenario.market (Scenario.grant ["A"%string])
                   (mkdate 2019 2 30)) = Raise (ValueError msg))
  /\ List.length (trace (main_with_report Scenario.market (Scenario.grant ["A"%string])
                           (mkdate 2019 2 30))) = 5%nat.
Proof.
  destruct (outcome (main Scenario.market (Scenario.grant ["A"%string])))
    as [v|err] eqn:Hv; [|vm_compute in Hv; discriminate Hv].
  split; [|split].
  - destruct (@report_stops_on_grant_date_only ref_libm Scenario.market
                (Scenario.grant ["A"%string]) (mkdate 2019 6 15) v Hv)
      as (_ & Hok & _).
    eexists v, _. split; [exact (Hok eq_refl) | reflexivity].
  - destruct (@report_stops_on_grant_date_only ref_libm Scenario.market
                (Scenario.grant ["A"%string]) (mkdate 2019 2 30) v Hv)
      as (_ & _ & Hbad).
    exact (Hbad eq_refl).
  - destruct (@report_stops_on_grant_date_only ref_libm Scenario.market
                (Scenario.grant ["A"%string]) (mkdate 2019 2 30) v Hv)
      as (Ht & _).
    rewrite Ht. vm_compute. reflexivity.
Defined.

(* ------------------------------------------------------------------ *)
(** ** The weeks of the weekly cadence *)

Lemma week_bin_next_day (d d' : date) :
  toordinal d' = toordinal d + 1 ->
  week_bin d' = week_bin d + (if weekday d =? 4 then 1 else 0).
Proof.
  unfold week_bin, weekday. intros ->.
  destruct (Z.eqb_spec ((toordinal d + 6) mod 7) 4) as [E | E];
    Z.div_mod_to_equations; lia.
Qed.

(** X16. The weeks of the weekly cadence end on Fridays. Of the closes
    of two consecutive days the weekly series keeps both when the first
    day is a Friday, each closing its own week, and only the second
    when it is not. *)
Theorem weekly_prices_close_on_friday
    (libm : Libm) (d d' : date) (p p' : float) :
  add_days d 1 = Ok d' ->
  is_nan p = false ->
  is_nan p' = false ->
  prices_at [(d, p); (d', p')] "weekly"
  = Ok (if weekday d =? 4 then [p; p'] else [p'], PrimFloat.sqrt 52).
Proof.
  intros Hd Hp Hp'. apply add_days_ok in Hd as [_ Ho].
  pose proof (week_bin_next_day d d' Ho) as Hb.
  unfold prices_at. cbn [String.eqb Ascii.eqb Bool.eqb]. f_equal. f_equal.
  unfold resample_last, last_date. cbn [last fst]. rewrite Hb.
  destruct (weekday d =? 4).
  - replace (week_bin d + 1 - week_bin d + 1) with 2 by lia.
    change (Z.to_nat 2) with 2%nat. cbn [seq map Z.of_nat Pos.of_succ_nat Pos.succ].
    unfold in_bin. cbn [filter fst snd map].
    rewrite Hb.
    replace (week_bin d =? week_bin d + 0) with true by (symmetry; apply Z.eqb_eq; lia).
    replace (week_bin d + 1 =? week_bin d + 0) with false
      by (symmetry; apply Z.eqb_neq; lia).
    replace (week_bin d =? week_bin d + 1) with false
      by (symmetry; apply Z.eqb_neq; lia).
    rewrite Z.eqb_refl. cbn [map snd].
    rewrite !last_valid_single by assumption. reflexivity.
  - replace (week_bin d + 0 - week_bin d + 1) with 1 by lia.
    change (Z.to_nat 1) with 1%nat. cbn [seq map Z.of_nat].
    unfold in_bin. cbn [filter fst snd map].
    rewrite Hb, !Z.add_0_r, !Z.eqb_refl. cbn [map snd].
    unfold last_valid. cbn [fold_left]. rewrite Hp, Hp'. reflexivity.
Qed.

(** Friday 2024-01-05 and Saturday 2024-01-06 close two weeks. *)
Lemma weekly_prices_close_on_friday_example :
  prices_at [(mkdate 2024 1 5, 100%float); (mkdate 2024 1 6, 101%float)] "weekly"
  = Ok ([100; 101]%float, PrimFloat.sqrt 52).
Proof.
  apply (@weekly_prices_close_on_friday ref_libm (mkdate 2024 1 5) (mkdate 2024 1 6)
           100%float 101%float); reflexivity.
Defined.

(* ------------------------------------------------------------------ *)
(** ** The length of the price history *)

Lemma days_before_year_succ (y : Z) :
  days_before_year (y + 1)
  = days_before_year y + 365 + (if is_leap y then 1 else 0).
Proof.
  unfold days_before_year, is_leap. cbv zeta.
  replace (y + 1 - 1) with y by lia.
  destruct (Z.eqb_spec (y mod 4) 0) as [E4 | E4];
    destruct (Z.eqb_spec (y mod 100) 0) as [E100 | E100];
    destruct (Z.eqb_spec (y mod 400) 0) as [E400 | E400];
    cbn [andb orb negb]; Z.div_mod_to_equations; lia.
Qed.

Lemma days_before_year_span (y n : Z) :
  0 <= n ->
  365 * n <= days_before_year (y + n) - days_before_year y <= 366 * n.
Proof.
  intros Hn. revert n Hn. apply natlike_ind.
  - rewrite Z.add_0_r. lia.
  - intros n Hn IH. replace (y + Z.succ n) with (y + n + 1) by lia.
    rewrite days_before_year_succ. destruct (is_leap (y + n)); lia.
Qed.

Lemma same_day_years_apart (y m d n : Z) :
  0 <= n ->
  365 * n <= toordinal (mkdate y m d) - toordinal (mkdate (y - n) m d) <= 366 * n.
Proof.
  intros Hn. unfold toordinal, days_before_month. cbn [year month day].
  destruct (2 <? m); cbn [andb].
  - pose proof (days_before_year_succ y) as Hy.
    pose proof (days_before_year_succ (y - n)) as Hyn.
    pose proof (@days_before_year_span (y - n + 1) n Hn) as Hs.
    replace (y - n + 1 + n) with (y + 1) in Hs by lia.
    destruct (is_leap y), (is_leap (y - n)); lia.
  - pose proof (@days_before_year_span (y - n) n Hn) as Hs.
    replace (y - n + n) with y in Hs by lia. lia.
Qed.

(** X17. The price history is as long as the maturity: for a maturity
    of [ytm] years that is not negative, the window that is downloaded
    ends at the valuation date and starts between [365 * ytm] and
    [366 * ytm] days before it; for a maturity of 0 it is empty. *)
Theorem history_window_spans_maturity
    (cfg : config) (ytm : Z) (start_date end_date : date) :
  history_window cfg = Ok (ytm, start_date, end_date) ->
  0 <= ytm ->
  end_date = valuation_date cfg
  /\ 365 * ytm <= toordinal end_date - toordinal start_date <= 366 * ytm
  /\ (ytm = 0 -> start_date = end_date).
Proof.
  intros Hw Hn.
  destruct (history_window_dates cfg Hw) as (Hy & He & Hv & _).
  split; [exact He|].
  unfold history_window in Hw. rewrite Hy in Hw. cbn [rbind] in Hw.
  rewrite (strptime_valid _ Hv) in Hw. cbn [rbind] in Hw.
  unfold replace_year in Hw.
  destruct (valid_date _); [| destruct (_ && _); discriminate Hw].
  cbn [rbind] in Hw. injection Hw as <- <-.
  destruct (valuation_date cfg) as [y m d]. cbn [year month day].
  split; [apply same_day_years_apart; exact Hn|].
  intros ->. rewrite Z.sub_0_r. reflexivity.
Qed.

(** The grant of the description: four years, of which 2016 is a leap
    year, 1461 days. *)
Lemma history_window_spans_maturity_example :
  mkdate 2020 1 1 = valuation_date (Scenario.grant ["A"%string])
  /\ 365 * 4 <= toordinal (mkdate 2020 1 1) - toordinal (mkdate 2016 1 1) <= 366 * 4
  /\ (4 = 0 -> mkdate 2016 1 1 = mkdate 2020 1 1).
Proof.
  apply (@history_window_spans_maturity (Scenario.grant ["A"%string]) 4
           (mkdate 2016 1 1) (mkdate 2020 1 1)); [reflexivity | lia].
Defined.

(* ------------------------------------------------------------------ *)
(** ** A frequency that is none of the three *)

(** X18. A frequency that is not 'daily', 'weekly' or 'monthly' does
    not stop [main]. Every comparable ticker fails, one with data on
    the [ValueError] of line 27, and the loop prints the failures and
    goes on; the run continues as with no ticker at all, so that a run
    that returns has an empty volatility table and a NaN volatility. *)
Theorem invalid_frequency_is_not_raised
    (libm : Libm) (yf_download : string -> date -> date -> result frame)
    (cfg : config) (f : string) (ytm : Z) (start_date end_date : date) :
  frequency cfg = Some f ->
  f <> "daily"%string -> f <> "weekly"%string -> f <> "monthly"%string ->
  history_window cfg = Ok (ytm, start_date, end_date) ->
  (forall ticker, ticker_failed yf_download start_date end_date f ticker = true)
  /\ (forall ticker row rows,
        yf_download ticker start_date end_date = Ok (row :: rows) ->
        ticker_outcome yf_download start_date end_date f ticker
        = Raise (ValueError "Invalid frequency. Use 'daily', 'weekly', or 'monthly'."))
  /\ outcome (main yf_download cfg)
     = outcome (main_after_volatilities yf_download cfg ytm [])
  /\ (forall v, outcome (main yf_download cfg) = Ok v ->
        volatility_table v = [("Average"%string, None)]
        /\ average_volatility v = nan).
Proof.
  intros Hf Hd Hwk Hm Hw.
  assert (Hp : forall s, prices_at s f
                 = Raise (ValueError "Invalid frequency. Use 'daily', 'weekly', or 'monthly'.")).
  { intros s. unfold prices_at.
    destruct (String.eqb_spec f "daily"); [contradiction|].
    destruct (String.eqb_spec f "weekly"); [contradiction|].
    destruct (String.eqb_spec f "monthly"); [contradiction|]. reflexivity. }
  assert (Hout : forall ticker row rows,
            yf_download ticker start_date end_date = Ok (row :: rows) ->
            ticker_outcome yf_download start_date end_date f ticker
            = Raise (ValueError "Invalid frequency. Use 'daily', 'weekly', or 'monthly'.")).
  { intros ticker row rows E. unfold ticker_outcome. rewrite E. cbn [rbind].
    unfold volatility_of_data. rewrite Hp. reflexivity. }
  assert (Hfail : forall ticker,
            ticker_failed yf_download start_date end_date f ticker = true).
  { intros ticker. unfold ticker_failed.
    destruct (yf_download ticker start_date end_date) as [[|row rows]|err] eqn:E.
    - unfold ticker_outcome. rewrite E. reflexivity.
    - rewrite (Hout ticker row rows E). reflexivity.
    - unfold ticker_outcome. rewrite E. reflexivity. }
  split; [exact Hfail|]. split; [exact Hout|].
  assert (Hmain : outcome (main yf_download cfg)
                  = outcome (main_after_volatilities yf_download cfg ytm [])).
  { rewrite (main_run libm yf_download cfg Hw). unfold main_from. rewrite Hf.
    rewrite volatilities_loop_run.
    rewrite (@rows_all_failed libm yf_download start_date end_date f (public_comps cfg))
      by (intros ticker _; apply Hfail).
    rewrite outcome_bind. reflexivity. }
  split; [exact Hmain|].
  intros v Hv. rewrite Hmain in Hv. unfold main_after_volatilities in Hv.
  rewrite outcome_bind in Hv.
  destruct (outcome (yields_loop _ _ _)) as [yields|e]; [|discriminate Hv].
  cbn [rbind] in Hv. rewrite bind_lift in Hv.
  destruct (interpolated_df_of yields) as [df|e]; [|discriminate Hv].
  rewrite bind_lift in Hv.
  destruct (risk_free_rate_of df ytm) as [rf|e]; [|discriminate Hv].
  rewrite bind_lift in Hv.
  destruct (black_scholes _ _ ytm rf _) as [ov|e]; [|discriminate Hv].
  cbn in Hv. injection Hv as <-. split; reflexivity.
Qed.

(** The grant of the description with the frequency 'yearly': ticker
    "A", which has prices, fails on the frequency, and the run returns
    with a NaN volatility. *)
Lemma invalid_frequency_is_not_raised_example :
  let cfg := mkconfig 50 45 (mkdate 2020 1 1) (mkdate 2025 1 1) (mkdate 2023 1 1)
               ["A"%string] (Some "yearly"%string) in
  ticker_outcome Scenario.market (mkdate 2016 1 1) (mkdate 2020 1 1) "yearly" "A"
  = Raise (ValueError "Invalid frequency. Use 'daily', 'weekly', or 'monthly'.")
  /\ exists v, outcome (main Scenario.market cfg) = Ok v /\ average_volatility v = nan.
Proof.
  intros cfg.
  destruct (@invalid_frequency_is_not_raised ref_libm Scenario.market cfg "yearly"
              4 (mkdate 2016 1 1) (mkdate 2020 1 1))
    as (_ & Hout & _ & Hv); try first [reflexivity | discriminate].
  split.
  - eapply Hout. reflexivity.
  - destruct (outcome (main Scenario.market cfg)) as [v|err] eqn:E;
      [|vm_compute in E; discriminate E].
    exists v. split; [reflexivity|]. exact (proj2 (Hv v eq_refl)).
Defined.

(* ------------------------------------------------------------------ *)
(** ** A failed fetch among fetched yields *)

Section NanYield.

Local Open Scope float_scope.

Lemma sub_nan_l (x : float) : nan - x = nan.
Proof. by_spec sub_spec x. Qed.

Lemma sub_nan_r (x : float) : x - nan = nan.
Proof. by_spec sub_spec x. Qed.

Lemma add_nan_l (x : float) : nan + x = nan.
Proof. by_spec add_spec x. Qed.

Lemma eqb_nan_l (x : float) : (nan =? x) = false.
Proof.
  rewrite eqb_spec. change (Prim2SF nan) with S754_nan.
  destruct (Prim2SF x) as [[|]|[|]| |[|] ? ?]; reflexivity.
Qed.

Lemma eqb_nan_r (x : float) : (x =? nan) = false.
Proof.
  rewrite eqb_spec. change (Prim2SF nan) with S754_nan.
  destruct (Prim2SF x) as [[|]|[|]| |[|] ? ?]; reflexivity.
Qed.

(** A segment that ends in a NaN ordinate is NaN beyond its first
    abscissa. *)
Lemma segment_nan_right (x0 y0 x1 x : float) :
  (x0 =? x) = false -> segment x0 y0 x1 nan x = nan.
Proof.
  intros Hx. unfold segment. rewrite Hx. cbv zeta.
  rewrite sub_nan_l, div_nan_l, !mul_nan_l, !add_nan_l.
  change (is_nan nan) with true. cbv iota. cbn [andb].
  rewrite eqb_nan_r. reflexivity.
Qed.

(** A segment that starts from a NaN ordinate is NaN. *)
Lemma segment_nan_left (x0 x1 y1 x : float) : segment x0 nan x1 y1 x = nan.
Proof.
  unfold segment. destruct (x0 =? x); [reflexivity|]. cbv zeta.
  rewrite sub_nan_r, div_nan_l, !mul_nan_l, add_nan_l.
  change (is_nan nan) with true. cbv iota.
  rewrite eqb_nan_l, andb_false_r. apply add_nan_l.
Qed.

End NanYield.

(** X19. Among fetched yields, a fetch that failed counts as a yield of
    NaN: the table is the one that these four yields give. The NaN then
    spreads over both segments that touch it. With the 5-year fetch
    failed and the three others returned, whatever they are, every
    maturity from 2 to 9 years is NaN in the table, and so is the rate
    looked up for it. *)
Theorem failed_fetch_spreads_nan (y1 y10 y30 : float) (ytm : Z) :
  2 <= ytm <= 9 ->
  interpolated_df_of (yields_of (Some y1) None (Some y10) (Some y30))
  = interpolated_df_of (yields_of (Some y1) (Some nan) (Some y10) (Some y30))
  /\ exists df,
       interpolated_df_of (yields_of (Some y1) None (Some y10) (Some y30)) = Ok df
       /\ cell df ytm = Some (Some nan)
       /\ risk_free_rate_of df ytm = Ok nan.
Proof.
  intros H.
  assert (E : interpolated_df_of (yields_of (Some y1) None (Some y10) (Some y30))
              = interpolated_df_of (yields_of (Some y1) (Some nan) (Some y10) (Some y30)))
    by reflexivity.
  split; [exact E|]. rewrite E, curve_all_present. eexists. split; [reflexivity|].
  assert (Hc : Spec.curve_value y1 nan y10 y30 ytm = nan).
  { assert (Hin : In ytm [2; 3; 4; 5; 6; 7; 8; 9]) by (cbn [In]; lia).
    cbn [In] in Hin.
    repeat (destruct Hin as [<- | Hin];
            [ unfold Spec.curve_value;
              cbn [Z.eqb Z.ltb Z.compare Pos.eqb Pos.compare Pos.compare_cont];
              rewrite ?segment_nan_left, ?segment_nan_right by reflexivity;
              reflexivity |]).
    contradiction. }
  assert (Hrow : find (fun row : Z * option float => fst row =? ytm)
                   (map (fun m => (m, Some (Spec.curve_value y1 nan y10 y30 m)))
                        (Py.range 1 31))
                 = Some (ytm, Some (Spec.curve_value y1 nan y10 y30 ytm))).
  { assert (Hin : In ytm [2; 3; 4; 5; 6; 7; 8; 9]) by (cbn [In]; lia).
    cbn [In] in Hin.
    repeat (destruct Hin as [<- | Hin]; [reflexivity|]). contradiction. }
  rewrite Hc in Hrow.
  unfold cell, risk_free_rate_of. rewrite Hrow. split; reflexivity.
Qed.

(** Yields of 1.5, 2 and 2.5 percent at 1, 10 and 30 years, and no
    5-year yield: the rate for 4 years is NaN. *)
Lemma failed_fetch_spreads_nan_example :
  exists df,
    interpolated_df_of (yields_of (Some 1.5%float) None (Some 2%float) (Some 2.5%float))
    = Ok df
    /\ cell df 4 = Some (Some nan)
    /\ risk_free_rate_of df 4 = Ok nan.
Proof.
  apply (@failed_fetch_spreads_nan 1.5%float 2%float 2.5%float 4). lia.
Defined.

(* ------------------------------------------------------------------ *)
(** ** The pricer on a rate or a volatility that is NaN *)

Section NanPrice.

Local Open Scope float_scope.



End NanPrice.


